(** * Order / payment confirmation pipeline

    A shallow embedding of the storefront's payment edge function
    (the [serve] handler with its [create-order] and [verify-payment]
    actions and the [createHmacSha256] helper), of the checkout page's
    payment [handler] with its inventory loop, and of the cart context
    the checkout page reads its [items] from; then of the code around
    them: the checkout form and its [handleSubmit], the product page's
    [handleAddToCart], the cancellation of the orders page and the list
    of recently viewed products.

    Conventions.
    - A JavaScript string is modelled by the sequence of its UTF-8 bytes
      (a Rocq [string]); [TextEncoder.encode] is then the list of byte
      values, [+] on strings is [++] and [!==] is the negation of string
      equality.
    - A database table is a list of rows; [update(...).eq(col, v)] rewrites
      every row whose column equals [v].  The [product_variants] table is
      keyed by its primary key and only its [stock_quantity] column is
      modelled: a finite map from variant id to stock.
    - Whether a store write of a request takes effect is decided by the
      store, not by the handler: it is an input of the model ([Outcomes]).
      A write that fails leaves its table as it was and hands the handler
      an error object.  A write that does not fail reaches every row its
      filter selects.  The row-level policies of the deployment are not
      modelled apart: an update that a policy filters (the migration of
      the payments table lets only admins update it) leaves the table as
      a failed write does, and [verify-payment] acts on neither.
    - A JavaScript number is an IEEE 754 double, a primitive [float]:
      products and sums are rounded as the runtime rounds them.  A
      decimal literal stands for the nearest double.  Quantities and
      stock are integers.
    - The environment is that of a deployment whose gateway secret is
      set; what the code does with an empty secret is stated apart
      ([createHmacSha256], [verify_payment_with]).
    - Console output is not modelled. *)

From Stdlib Require Import ZArith Floats List Ascii String Bool Lia.
From stdpp Require Import base strings gmap.

Set Warnings "-inexact-float".

Import ListNotations.
Local Open Scope string_scope.
Local Open Scope Z_scope.

(** ** The WebCrypto primitive: HMAC with SHA-256

    [crypto.subtle.importKey('raw', key, {name:'HMAC', hash:'SHA-256'})]
    followed by [crypto.subtle.sign('HMAC', key, message)] is the keyed
    hash of RFC 2104 over the hash function of FIPS 180-4.  Words are
    32-bit integers in [Z], wrapped by hand; bytes are integers in
    [0, 256). *)
Module WebCrypto.

Definition w32 (x : Z) : Z := x mod 2 ^ 32.
Definition add32 (x y : Z) : Z := w32 (x + y).
Definition rotr (n x : Z) : Z :=
  w32 (Z.lor (Z.shiftr x n) (Z.shiftl x (32 - n))).
Definition shr (n x : Z) : Z := Z.shiftr x n.
Definition not32 (x : Z) : Z := Z.lxor x 0xffffffff.

Definition Ch (x y z : Z) : Z := Z.lxor (Z.land x y) (Z.land (not32 x) z).
Definition Maj (x y z : Z) : Z :=
  Z.lxor (Z.lxor (Z.land x y) (Z.land x z)) (Z.land y z).
Definition Sigma0 (x : Z) : Z := Z.lxor (Z.lxor (rotr 2 x) (rotr 13 x)) (rotr 22 x).
Definition Sigma1 (x : Z) : Z := Z.lxor (Z.lxor (rotr 6 x) (rotr 11 x)) (rotr 25 x).
Definition sigma0 (x : Z) : Z := Z.lxor (Z.lxor (rotr 7 x) (rotr 18 x)) (shr 3 x).
Definition sigma1 (x : Z) : Z := Z.lxor (Z.lxor (rotr 17 x) (rotr 19 x)) (shr 10 x).

(** The round constants and the initial hash value are defined as FIPS
    180-4 defines them: the first 32 bits of the fractional parts of the
    cube roots of the first 64 primes, and of the square roots of the
    first 8. *)
Definition primes64 : list Z :=
  [ 2; 3; 5; 7; 11; 13; 17; 19; 23; 29; 31; 37; 41; 43; 47; 53;
    59; 61; 67; 71; 73; 79; 83; 89; 97; 101; 103; 107; 109; 113; 127; 131;
    137; 139; 149; 151; 157; 163; 167; 173; 179; 181; 191; 193; 197; 199;
    211; 223; 227; 229; 233; 239; 241; 251; 257; 263; 269; 271; 277; 281;
    283; 293; 307; 311 ].

(** The integer cube root of [n], found bit by bit from bit [bits - 1]. *)
Fixpoint cube_root (bits : nat) (n r : Z) : Z :=
  match bits with
  | O => r
  | S b =>
      let r' := r + 2 ^ Z.of_nat b in
      cube_root b n (if r' * r' * r' <=? n then r' else r)
  end.

Definition frac_cube_root (p : Z) : Z := w32 (cube_root 40 (p * 2 ^ 96) 0).
Definition frac_square_root (p : Z) : Z := w32 (Z.sqrt (p * 2 ^ 64)).

Definition K256 : list Z := Eval vm_compute in List.map frac_cube_root primes64.
Definition H256 : list Z :=
  Eval vm_compute in List.map frac_square_root (List.firstn 8 primes64).

(** Big-endian packing of bytes into words and back. *)
Fixpoint words_of_bytes (bs : list Z) : list Z :=
  match bs with
  | b0 :: b1 :: b2 :: b3 :: rest =>
      (Z.shiftl b0 24 + Z.shiftl b1 16 + Z.shiftl b2 8 + b3)
        :: words_of_bytes rest
  | _ => []
  end.

Definition bytes_of_word (w : Z) : list Z :=
  [ Z.shiftr w 24 mod 256; Z.shiftr w 16 mod 256; Z.shiftr w 8 mod 256; w mod 256 ].

Definition bytes_of_len64 (n : Z) : list Z :=
  bytes_of_word (Z.shiftr n 32 mod 2 ^ 32) ++ bytes_of_word (n mod 2 ^ 32).

(** Padding: one [0x80] byte, zeros up to 56 modulo 64, the bit length on
    eight bytes. *)
Definition pad (msg : list Z) : list Z :=
  let n := Z.of_nat (List.length msg) in
  let zeros := Z.to_nat ((55 - n) mod 64) in
  msg ++ [0x80] ++ List.repeat 0 zeros ++ bytes_of_len64 (8 * n).

(** The message schedule, most recent word first while it is built. *)
Fixpoint extend (k : nat) (rev_w : list Z) : list Z :=
  match k with
  | O => rev_w
  | S k' =>
      let w2 := List.nth 1 rev_w 0 in
      let w7 := List.nth 6 rev_w 0 in
      let w15 := List.nth 14 rev_w 0 in
      let w16 := List.nth 15 rev_w 0 in
      extend k' (add32 (add32 (sigma1 w2) w7) (add32 (sigma0 w15) w16) :: rev_w)
  end.

Definition schedule (block : list Z) : list Z :=
  List.rev (extend 48 (List.rev (words_of_bytes block))).

Record regs := Regs { ra : Z; rb : Z; rc : Z; rd : Z; re : Z; rf : Z; rg : Z; rh : Z }.

Definition round (s : regs) (kw : Z * Z) : regs :=
  let t1 := add32 (add32 (add32 (rh s) (Sigma1 (re s))) (Ch (re s) (rf s) (rg s)))
                  (add32 (fst kw) (snd kw)) in
  let t2 := add32 (Sigma0 (ra s)) (Maj (ra s) (rb s) (rc s)) in
  Regs (add32 t1 t2) (ra s) (rb s) (rc s) (add32 (rd s) t1) (re s) (rf s) (rg s).

Definition regs_of (h : list Z) : regs :=
  Regs (List.nth 0 h 0) (List.nth 1 h 0) (List.nth 2 h 0) (List.nth 3 h 0)
       (List.nth 4 h 0) (List.nth 5 h 0) (List.nth 6 h 0) (List.nth 7 h 0).

Definition list_of (s : regs) : list Z :=
  [ ra s; rb s; rc s; rd s; re s; rf s; rg s; rh s ].

Definition compress (h : list Z) (block : list Z) : list Z :=
  let s := List.fold_left round (List.combine K256 (schedule block)) (regs_of h) in
  List.map (fun p => add32 (fst p) (snd p)) (List.combine h (list_of s)).

Fixpoint blocks (fuel : nat) (h : list Z) (bs : list Z) : list Z :=
  match fuel with
  | O => h
  | S fuel' =>
      match bs with
      | [] => h
      | _ => blocks fuel' (compress h (List.firstn 64 bs)) (List.skipn 64 bs)
      end
  end.

Definition sha256 (msg : list Z) : list Z :=
  let p := pad msg in
  List.flat_map bytes_of_word (blocks (List.length p) H256 p).

Definition xor_pad (c : Z) (key : list Z) : list Z :=
  List.map (fun b => Z.lxor b c) key.

Definition hmac_key (key : list Z) : list Z :=
  let k := if (64 <? Z.of_nat (List.length key)) then sha256 key else key in
  k ++ List.repeat 0 (64 - List.length k)%nat.

Definition hmac_sha256 (key msg : list Z) : list Z :=
  let k := hmac_key key in
  sha256 (xor_pad 0x5c k ++ sha256 (xor_pad 0x36 k ++ msg)).

End WebCrypto.

(** ** Byte and text helpers of the runtime *)

(** [new TextEncoder().encode(s)]. *)
Definition encode (s : string) : list Z :=
  List.map (fun c => Z.of_N (N_of_ascii c)) (list_ascii_of_string s).

(** [new TextDecoder().decode(bytes)] on ASCII output. *)
Definition decode (bs : list Z) : string :=
  string_of_list_ascii (List.map (fun b => ascii_of_N (Z.to_N b)) bs).

Definition hex_digit (n : Z) : Z :=
  if n <? 10 then 48 + n else 87 + n.

(** [hexEncode] of the standard library's [encoding/hex]: two lowercase
    digits per byte. *)
Definition hexEncode (bs : list Z) : list Z :=
  List.flat_map (fun b => [hex_digit (b / 16); hex_digit (b mod 16)]) bs.

(** The hex text of the keyed hash of [message] under [secret]. *)
Definition hmac_hex (secret message : string) : string :=
  decode (hexEncode (WebCrypto.hmac_sha256 (encode secret) (encode message))).

(** [createHmacSha256(secret, message)].  [crypto.subtle.importKey]
    refuses key data of length zero: the promise is then rejected
    ([None]) and no signature is computed. *)
Definition createHmacSha256 (secret message : string) : option string :=
  let keyData := encode secret in
  let messageData := encode message in
  match keyData with
  | [] => None
  | _ :: _ =>
      let signature := WebCrypto.hmac_sha256 keyData messageData in
      Some (decode (hexEncode signature))
  end.

(** The message of the error [importKey] throws for such a key. *)
Definition zero_length_key : string := "Key length is zero".

(** Test cases 1, 2, 3, 6 and 7 of RFC 4231 for HMAC-SHA-256: key bytes,
    data bytes, hex digest.  The keys of cases 6 and 7 are longer than a
    block; the data of case 7 fills more than two blocks. *)
Definition rfc4231 : list (list Z * list Z * string) :=
  [ (List.repeat 11 20, encode "Hi There",
     "b0344c61d8db38535ca8afceaf0bf12b881dc200c9833da726e9376c2e32cff7");
    (encode "Jefe", encode "what do ya want for nothing?",
     "5bdcc146bf60754e6a042426089575c75a003f089d2739839dec58b964ec3843");
    (List.repeat 170 20, List.repeat 221 50,
     "773ea91e36800e46854db8ebd09181a72959098b3ef8c122d9635514ced565fe");
    (List.repeat 170 131,
     encode "Test Using Larger Than Block-Size Key - Hash Key First",
     "60e431591ee0b67f0d8a26aacbf5b77f8e0bc6213728c5140546040f0ee37f54");
    (List.repeat 170 131,
     encode ("This is a test using a larger than block-size key and a larger "
             ++ "than block-size data. The key needs to be hashed before being "
             ++ "used by the HMAC algorithm."),
     "9b09ffa71b942fcb27635fbcd5b0e944bfdc63644f0713938a7f51535c3a35e2") ].

(** ** Numbers of the runtime *)

(** The double nearest to an integer. *)
Definition float_of_Z (z : Z) : float :=
  SF2Prim (SpecFloat.binary_normalize 53 1024 z 0 false).

(** [Math.round]: the integer nearest to a double, halves upwards; the
    sign of a zero result is that of the argument; what is not finite
    is returned as it is. *)
Definition Math_round (x : float) : float :=
  match Prim2SF x with
  | SpecFloat.S754_finite s m e =>
      if 0 <=? e then x
      else
        let twice := (if s then Z.neg m else Z.pos m) * 2 + 2 ^ (- e) in
        let n := twice / 2 ^ (1 - e) in
        if (n =? 0) && s then (-0)%float else float_of_Z n
  | _ => x
  end.

(** ** Rows of the store

    Columns the modelled code neither reads nor writes (generated ids of
    payments and order items, timestamps, the shipping address) are left
    out.  Status columns are [TEXT] in the schema and stay strings. *)

Record Payment := mkPayment {
  payment_order_id : string;
  payment_user_id : string;
  razorpay_order_id : string;
  razorpay_payment_id : option string;
  razorpay_signature : option string;
  payment_amount : float;
  payment_currency : string;
  payment_status : string;
  error_message : option string }.

Record Order := mkOrder {
  order_id : string;
  order_user_id : string;
  order_subtotal : float;
  order_shipping_cost : float;
  order_total : float;
  order_status : string;
  order_payment_method : string }.

Record OrderItem := mkOrderItem {
  item_order_id : string;
  item_product_id : string;
  item_variant_id : string;
  item_product_name : string;
  item_variant_details : string * string;
  item_quantity : Z;
  item_unit_price : float;
  item_total_price : float }.

(** An order created remotely at the gateway. *)
Record RazorpayOrder := mkRazorpayOrder {
  rzp_id : string;
  rzp_amount : float;
  rzp_currency : string;
  rzp_receipt : string }.

(** Everything the two programs write: the four tables and the orders
    that exist at the gateway. *)
Record State := mkState {
  payments : list Payment;
  orders : list Order;
  order_items : list OrderItem;
  product_variants : gmap string Z;
  razorpay_orders : list RazorpayOrder }.

(** [CartItem] of the cart context, without its optional image. *)
Record CartItem := mkCartItem {
  productId : string;
  variantId : string;
  name : string;
  size : string;
  color : string;
  price : float;
  quantity : Z }.

(** ** Store operations *)

(** [from(t).update(set).eq(col, v)] on the rows of a table. *)
Definition update_eq {Row : Type} (col : Row -> string) (v : string)
    (set : Row -> Row) (rows : list Row) : list Row :=
  List.map (fun r => if String.eqb (col r) v then set r else r) rows.

(** A write whose outcome the store decides: [(error, table afterwards)]. *)
Definition write {T : Type} (fails : bool) (after before : T) : bool * T :=
  if fails then (true, before) else (false, after).

Definition mark_failed (p : Payment) : Payment :=
  mkPayment (payment_order_id p) (payment_user_id p) (razorpay_order_id p)
    (razorpay_payment_id p) (razorpay_signature p) (payment_amount p)
    (payment_currency p) "failed" (Some "Signature verification failed").

Definition mark_completed (pid sig : string) (p : Payment) : Payment :=
  mkPayment (payment_order_id p) (payment_user_id p) (razorpay_order_id p)
    (Some pid) (Some sig) (payment_amount p)
    (payment_currency p) "completed" (error_message p).

Definition mark_confirmed (o : Order) : Order :=
  mkOrder (order_id o) (order_user_id o) (order_subtotal o)
    (order_shipping_cost o) (order_total o) "confirmed" "razorpay".

Definition set_payments (ps : list Payment) (st : State) : State :=
  mkState ps (orders st) (order_items st) (product_variants st) (razorpay_orders st).

Definition set_orders (os : list Order) (st : State) : State :=
  mkState (payments st) os (order_items st) (product_variants st) (razorpay_orders st).

Definition set_order_items (ois : list OrderItem) (st : State) : State :=
  mkState (payments st) (orders st) ois (product_variants st) (razorpay_orders st).

Definition set_product_variants (vs : gmap string Z) (st : State) : State :=
  mkState (payments st) (orders st) (order_items st) vs (razorpay_orders st).

Definition set_razorpay_orders (rs : list RazorpayOrder) (st : State) : State :=
  mkState (payments st) (orders st) (order_items st) (product_variants st) rs.

(** ** Requests and responses of the edge function *)

(** A field of a response object; [JRaw] is a JSON value handed through
    as it came. *)
Inductive Json :=
| JBool (b : bool)
| JNum (x : float)
| JStr (s : string)
| JRaw (text : string).

Record Response := mkResponse { status : Z; json : option (list (string * Json)) }.

Inductive Body :=
| CreateOrder (orderId : string) (amount : float)
| VerifyPayment (razorpay_order_id razorpay_payment_id razorpay_signature orderId : string)
| OtherAction (action : string)
| Unparsable (message : string).

(** [auth_user] is what [supabaseClient.auth.getUser()] yields for the
    request's [Authorization] header: the user's id, or nothing on an
    auth error. *)
Record Request := mkRequest {
  method : string;
  auth_user : option string;
  body : Body }.

(** The two variables of the environment, which the source takes as
    set ([Deno.env.get(...)!]).  The secret is a key the runtime can
    import: it is not empty. *)
Record Env := mkEnv {
  RAZORPAY_KEY_ID : string;
  RAZORPAY_KEY_SECRET : string;
  secret_is_set : RAZORPAY_KEY_SECRET <> "" }.

(** What the gateway answers to [POST /v1/orders]. *)
Inductive GatewayReply :=
| GatewayOk (id : string)
| GatewayRejected (details : string)
| GatewayThrows (message : string).

(** What the outside world decides during one request. *)
Record Outcomes := mkOutcomes {
  gateway : GatewayReply;
  payments_write_error : bool;
  orders_write_error : bool }.

Definition no_faults (g : GatewayReply) : Outcomes := mkOutcomes g false false.

Definition respond (code : Z) (fields : list (string * Json)) : Response :=
  mkResponse code (Some fields).

(** The [create-order] action.  The gateway, when it accepts, answers
    with a fresh id and with the amount and currency it was sent. *)
Definition create_order (env : Env) (oc : Outcomes) (user : string)
    (orderId : string) (amount : float) (st : State) : Response * State :=
  match gateway oc with
  | GatewayThrows message => (respond 500 [("error", JStr message)], st)
  | GatewayRejected details =>
      (respond 400 [("error", JStr "Failed to create Razorpay order");
                    ("details", JRaw details)], st)
  | GatewayOk id =>
      let razorpayOrder :=
        mkRazorpayOrder id (Math_round (amount * 100)%float) "INR" orderId in
      let st1 := set_razorpay_orders (razorpay_orders st ++ [razorpayOrder])%list st in
      let row := mkPayment orderId user id None None amount "INR" "pending" None in
      let '(paymentError, ps) :=
        write (payments_write_error oc) (payments st1 ++ [row])%list (payments st1) in
      if paymentError
      then (respond 500 [("error", JStr "Failed to store payment record")],
            set_payments ps st1)
      else (respond 200 [("razorpay_order_id", JStr id);
                         ("razorpay_key_id", JStr (RAZORPAY_KEY_ID env));
                         ("amount", JNum (rzp_amount razorpayOrder));
                         ("currency", JStr (rzp_currency razorpayOrder))],
            set_payments ps st1)
  end.

Definition expectedSignature (env : Env) (razorpay_order_id razorpay_payment_id : string)
    : string :=
  let body := razorpay_order_id ++ "|" ++ razorpay_payment_id in
  hmac_hex (RAZORPAY_KEY_SECRET env) body.

(** The test [expectedSignature !== razorpay_signature]. *)
Definition signature_mismatch (env : Env)
    (razorpay_order_id razorpay_payment_id razorpay_signature : string) : bool :=
  negb (String.eqb (expectedSignature env razorpay_order_id razorpay_payment_id)
                   razorpay_signature).

(** The [verify-payment] action for the secret [secret].  When
    [createHmacSha256] throws, the [catch] of the handler answers 500
    with the error's message and nothing has been written. *)
Definition verify_payment_with (secret : string) (oc : Outcomes)
    (razorpay_order_id' razorpay_payment_id' razorpay_signature' orderId : string)
    (st : State) : Response * State :=
  let body := razorpay_order_id' ++ "|" ++ razorpay_payment_id' in
  match createHmacSha256 secret body with
  | None => (respond 500 [("error", JStr zero_length_key)], st)
  | Some expectedSignature' =>
      if negb (String.eqb expectedSignature' razorpay_signature')
      then
        let '(_, ps) :=
          write (payments_write_error oc)
            (update_eq razorpay_order_id razorpay_order_id' mark_failed (payments st))
            (payments st) in
        (respond 400 [("error", JStr "Payment verification failed");
                      ("valid", JBool false)],
         set_payments ps st)
      else
        let '(updatePaymentError, ps) :=
          write (payments_write_error oc)
            (update_eq razorpay_order_id razorpay_order_id'
               (mark_completed razorpay_payment_id' razorpay_signature') (payments st))
            (payments st) in
        let st1 := set_payments ps st in
        let '(updateOrderError, os) :=
          write (orders_write_error oc)
            (update_eq order_id orderId mark_confirmed (orders st1))
            (orders st1) in
        let st2 := set_orders os st1 in
        (respond 200 [("valid", JBool true);
                      ("message", JStr "Payment verified successfully")],
         st2)
  end.

(** The [verify-payment] action of a deployment. *)
Definition verify_payment (env : Env) (oc : Outcomes)
    (razorpay_order_id' razorpay_payment_id' razorpay_signature' orderId : string)
    (st : State) : Response * State :=
  verify_payment_with (RAZORPAY_KEY_SECRET env) oc
    razorpay_order_id' razorpay_payment_id' razorpay_signature' orderId st.

(** The request handler given to [serve]. *)
Definition serve (env : Env) (oc : Outcomes) (req : Request) (st : State)
    : Response * State :=
  if String.eqb (method req) "OPTIONS" then (mkResponse 200 None, st)
  else
    match auth_user req with
    | None => (respond 401 [("error", JStr "Unauthorized")], st)
    | Some user =>
        match body req with
        | Unparsable message => (respond 500 [("error", JStr message)], st)
        | CreateOrder orderId amount => create_order env oc user orderId amount st
        | VerifyPayment roid rpid rsig orderId =>
            verify_payment env oc roid rpid rsig orderId st
        | OtherAction _ => (respond 400 [("error", JStr "Invalid action")], st)
        end
    end.

(** ** The cart context *)

Definition set_quantity (q : Z) (i : CartItem) : CartItem :=
  mkCartItem (productId i) (variantId i) (name i) (size i) (color i) (price i) q.

(** [addItem]: the first line with the same [variantId] absorbs the
    quantity, otherwise the item is appended. *)
Fixpoint addItem (item : CartItem) (current : list CartItem) : list CartItem :=
  match current with
  | [] => [item]
  | i :: rest =>
      if String.eqb (variantId i) (variantId item)
      then set_quantity (quantity i + quantity item) i :: rest
      else i :: addItem item rest
  end.

Definition removeItem (variantId' : string) (current : list CartItem) : list CartItem :=
  List.filter (fun item => negb (String.eqb (variantId item) variantId')) current.

Definition updateQuantity (variantId' : string) (quantity' : Z)
    (current : list CartItem) : list CartItem :=
  if quantity' <=? 0 then removeItem variantId' current
  else List.map (fun item =>
                   if String.eqb (variantId item) variantId'
                   then set_quantity quantity' item else item) current.

Definition total (items : list CartItem) : float :=
  List.fold_left (fun sum item => (sum + price item * float_of_Z (quantity item))%float)
                 items 0%float.

(** ** The checkout page *)

Definition SHIPPING_COST : float := 10.

Inductive Toast :=
| ToastError (message : string)
| ToastSuccess (message : string).

Record Page := mkPage {
  cart : list CartItem;
  toasts : list Toast;
  location : string }.

Record World := mkWorld { store : State; page : Page }.

Definition toast (t : Toast) (p : Page) : Page :=
  mkPage (cart p) (toasts p ++ [t])%list (location p).

Definition clearCart (p : Page) : Page := mkPage [] (toasts p) (location p).

Definition navigate (to : string) (p : Page) : Page := mkPage (cart p) (toasts p) to.

(** The rows [handleSubmit] inserts before it asks for a gateway order:
    the order, then one order item per cart line.  [id] is the key the
    store generates for the order. *)
Definition order_item_row (order_id' : string) (item : CartItem) : OrderItem :=
  mkOrderItem order_id' (productId item) (variantId item) (name item)
    (size item, color item) (quantity item) (price item)
    (price item * float_of_Z (quantity item))%float.

Definition insert_order (id user : string) (items : list CartItem) (st : State) : State :=
  let orderTotal := (total items + SHIPPING_COST)%float in
  let order := mkOrder id user (total items) SHIPPING_COST orderTotal "pending" "razorpay" in
  let st1 := set_orders (orders st ++ [order])%list st in
  set_order_items (order_items st1 ++ List.map (order_item_row id) items)%list st1.

(** [supabase.functions.invoke('razorpay', {body})]: the parsed body of a
    2xx answer, an error for any other status. *)
Definition invoke (env : Env) (oc : Outcomes) (session : option string) (b : Body)
    (st : State) : (option (list (string * Json)) * bool) * State :=
  let '(resp, st') := serve env oc (mkRequest "POST" session b) st in
  if (200 <=? status resp) && (status resp <? 300)
  then ((json resp, false), st')
  else ((None, true), st').

Fixpoint field (key : string) (fields : list (string * Json)) : option Json :=
  match fields with
  | [] => None
  | (k, v) :: rest => if String.eqb k key then Some v else field key rest
  end.

(** JavaScript truthiness of a field; a handed-through value is never
    tested by the page. *)
Definition truthy (j : Json) : bool :=
  match j with
  | JBool b => b
  | JNum x => negb (PrimFloat.eqb x 0 || PrimFloat.is_nan x)
  | JStr s => negb (String.eqb s "")
  | JRaw _ => true
  end.

(** [verifyData?.valid]. *)
Definition valid (data : option (list (string * Json))) : bool :=
  match data with
  | Some fields =>
      match field "valid" fields with Some j => truthy j | None => false end
  | None => false
  end.

(** One turn of the inventory loop: read the variant's stock and, when the
    row exists, write back the difference. *)
Definition update_inventory_item (variants : gmap string Z) (item : CartItem)
    : gmap string Z :=
  match variants !! variantId item with
  | Some stock_quantity =>
      <[variantId item := stock_quantity - quantity item]> variants
  | None => variants
  end.

Definition update_inventory (items : list CartItem) (variants : gmap string Z)
    : gmap string Z :=
  List.fold_left update_inventory_item items variants.

(** What the gateway widget hands to the page's [handler]. *)
Record RazorpayResponse := mkRazorpayResponse {
  response_razorpay_order_id : string;
  response_razorpay_payment_id : string;
  response_razorpay_signature : string }.

(** The [handler] of the checkout options.  [items] and [order_id'] are
    the values its closure captured when the form was submitted. *)
Definition handler (env : Env) (oc : Outcomes) (session : option string)
    (items : list CartItem) (order_id' : string) (response : RazorpayResponse)
    (w : World) : World :=
  let '((verifyData, verifyError), st1) :=
    invoke env oc session
      (VerifyPayment (response_razorpay_order_id response)
                     (response_razorpay_payment_id response)
                     (response_razorpay_signature response) order_id')
      (store w) in
  if verifyError || negb (valid verifyData)
  then mkWorld st1
         (toast (ToastError "Payment verification failed. Please contact support.")
                (page w))
  else
    let st2 := set_product_variants
                 (update_inventory items (product_variants st1)) st1 in
    mkWorld st2
      (navigate "/orders"
         (toast (ToastSuccess "Payment successful! Order confirmed.")
                (clearCart (page w)))).

(** ** Vocabulary of the statements *)

(** The string [s] with its character at position [i] replaced by [c]. *)
Fixpoint replace_char (i : nat) (c : ascii) (s : string) : string :=
  match s with
  | EmptyString => EmptyString
  | String a rest =>
      match i with
      | O => String c rest
      | S i' => String a (replace_char i' c rest)
      end
  end.

(** Ownership of orders rewritten by [f]; nothing else changes. *)
Definition set_owner (f : string -> string) (o : Order) : Order :=
  mkOrder (order_id o) (f (order_user_id o)) (order_subtotal o)
    (order_shipping_cost o) (order_total o) (order_status o) (order_payment_method o).

Definition reown (f : string -> string) (st : State) : State :=
  set_orders (List.map (set_owner f) (orders st)) st.

Definition verified := respond 200 [("valid", JBool true);
                                    ("message", JStr "Payment verified successfully")].

Definition verification_failed :=
  respond 400 [("error", JStr "Payment verification failed"); ("valid", JBool false)].

Definition unauthorized := respond 401 [("error", JStr "Unauthorized")].

(** The quantity of variant [v] over the lines of [items]. *)
Definition ordered (v : string) (items : list CartItem) : Z :=
  List.fold_right
    (fun item n => if String.eqb (variantId item) v then quantity item + n else n)
    0 items.

(** ** Concrete data of the examples *)
Module Scenario.

Definition env : Env := mkEnv "rzp_test_key" "s3cr3t" ltac:(discriminate).

(** One line, quantity 2, unit price 24.995: subtotal 49.99. *)
Definition shirt : CartItem :=
  mkCartItem "p1" "v1" "Linen Shirt" "M" "blue" 24.995 2.

Definition items : list CartItem := [shirt].

Definition empty : State := mkState [] [] [] (<["v1" := 5]> ∅) [].

(** Alice submits the checkout form, the store names the order [order_A]. *)
Definition placed : State := insert_order "order_A" "alice" items empty.

Definition begin (user orderId : string) (amount : float) (gateway_id : string)
    (st : State)
    : Response * State :=
  serve env (no_faults (GatewayOk gateway_id))
        (mkRequest "POST" (Some user) (CreateOrder orderId amount)) st.

(** Alice's payment has been begun at the gateway as [rzp_1]. *)
Definition begun : State := snd (begin "alice" "order_A" 59.99 "rzp_1" placed).

(** The callback of the gateway for payment [pay_1] of [rzp_1]. *)
Definition callback : RazorpayResponse :=
  mkRazorpayResponse "rzp_1" "pay_1"
    "e53a0d6759ffe79748e84949615077862bb80dffc748cc0a803c9ce091ead722".

(** The same callback with the first character of the signature changed. *)
Definition forged : RazorpayResponse :=
  mkRazorpayResponse "rzp_1" "pay_1"
    "f53a0d6759ffe79748e84949615077862bb80dffc748cc0a803c9ce091ead722".

Definition checkout (st : State) : World :=
  mkWorld st (mkPage items [] "/checkout").

(** Alice's handler for [order_A] runs on the gateway's callback. *)
Definition confirm (oc : Outcomes) (w : World) : World :=
  handler env oc (Some "alice") items "order_A" callback w.

(** The store applies every write. *)
Definition ok : Outcomes := no_faults (GatewayOk "rzp_1").

(** The store refuses both updates of [verify-payment]. *)
Definition refused : Outcomes := mkOutcomes (GatewayOk "rzp_1") true true.

(** The store applies the update of the order, not that of the Payment
    row. *)
Definition payment_update_refused : Outcomes :=
  mkOutcomes (GatewayOk "rzp_1") true false.

(** A second, dearer order of Alice's that no payment refers to. *)
Definition coat : CartItem :=
  mkCartItem "p2" "v2" "Wool Coat" "L" "black" 500 1.

Definition two_orders : State := insert_order "order_B" "alice" [coat] begun.

Definition verify (oc : Outcomes) (user : string) (response : RazorpayResponse)
    (orderId : string) (st : State) : Response * State :=
  serve env oc
    (mkRequest "POST" (Some user)
       (VerifyPayment (response_razorpay_order_id response)
          (response_razorpay_payment_id response)
          (response_razorpay_signature response) orderId)) st.

End Scenario.

(** ** More of the cart context *)

(** [itemCount]: the quantities of all lines. *)
Definition itemCount (items : list CartItem) : Z :=
  List.fold_left (fun sum item => sum + quantity item) items 0.

(** ** The product page *)

Record Product := mkProduct {
  product_id : string;
  product_name : string;
  base_price : float }.

(** A row of [product_variants] as the product page reads it. *)
Record VariantRow := mkVariantRow {
  variant_id : string;
  variant_size : string;
  variant_color : string;
  variant_stock_quantity : Z;
  price_adjustment : float }.

(** [variants.find(v => v.size === selectedSize && v.color === selectedColor)]. *)
Definition selectedVariant (variants : list VariantRow)
    (selectedSize selectedColor : string) : option VariantRow :=
  List.find (fun v => String.eqb (variant_size v) selectedSize
                      && String.eqb (variant_color v) selectedColor) variants.

(** [Number(x || 0)] on a number: zero for what is falsy. *)
Definition or_zero (x : float) : float :=
  if PrimFloat.eqb x 0 || PrimFloat.is_nan x then 0%float else x.

(** [handleAddToCart] of the product page: [user] is the signed-in user,
    [quantity'] the quantity chosen on the page. *)
Definition handleAddToCart (user : option string) (product : Product)
    (variants : list VariantRow) (selectedSize selectedColor : string)
    (quantity' : Z) (p : Page) : Page :=
  match user with
  | None =>
      navigate "/auth" (toast (ToastError "Please sign in to add items to cart") p)
  | Some _ =>
      if String.eqb selectedSize "" || String.eqb selectedColor ""
      then toast (ToastError "Please select size and color") p
      else
        match selectedVariant variants selectedSize selectedColor with
        | None => toast (ToastError "Not enough stock available") p
        | Some v =>
            if variant_stock_quantity v <? quantity'
            then toast (ToastError "Not enough stock available") p
            else
              let price' :=
                (or_zero (base_price product) + or_zero (price_adjustment v))%float in
              let item := mkCartItem (product_id product) (variant_id v)
                            (product_name product) selectedSize selectedColor
                            price' quantity' in
              toast (ToastSuccess "Added to cart!")
                    (mkPage (addItem item (cart p)) (toasts p) (location p))
        end
  end.

(** ** The checkout form *)

Record FormData := mkFormData {
  fullName : string;
  address : string;
  city : string;
  state : string;
  zipCode : string;
  phone : string }.

(** The [length] of a JavaScript string given by its UTF-8 bytes: one
    UTF-16 code unit per encoded character, two for a character encoded
    on four bytes; continuation bytes count for nothing. *)
Definition code_units (c : ascii) : nat :=
  let b := N_of_ascii c in
  if ((128 <=? b) && (b <? 192))%N then 0%nat
  else if (240 <=? b)%N then 2%nat
  else 1%nat.

Fixpoint js_length (s : string) : nat :=
  match s with
  | EmptyString => 0%nat
  | String c rest => (code_units c + js_length rest)%nat
  end.

(** The issues of [z.string().min(min, message).max(max)] on a value: both
    checks run, in this order.  [max_text] is [max] in decimal. *)
Definition string_issues (min : nat) (message : string) (max : nat) (max_text : string)
    (value : string) : list string :=
  ((if (js_length value <? min)%nat then [message] else [])
   ++ (if (max <? js_length value)%nat
       then [String.append "String must contain at most "
               (String.append max_text " character(s)")]
       else []))%list.

(** The issues of [addressSchema], field after field. *)
Definition addressSchema_issues (d : FormData) : list string :=
  (string_issues 1 "Full name is required" 100 "100" (fullName d)
   ++ string_issues 1 "Address is required" 200 "200" (address d)
   ++ string_issues 1 "City is required" 100 "100" (city d)
   ++ string_issues 1 "State is required" 50 "50" (state d)
   ++ string_issues 5 "ZIP code must be at least 5 characters" 10 "10" (zipCode d)
   ++ string_issues 10 "Phone number must be at least 10 digits" 15 "15" (phone d))%list.

(** [addressSchema.parse(formData)]: the data, or the [ZodError] with its
    issues. *)
Definition addressSchema_parse (d : FormData) : FormData + list string :=
  match addressSchema_issues d with
  | [] => inl d
  | issues => inr issues
  end.

(** What the store decides while the form is submitted: the id it gives
    the order, whether it takes the order, which item inserts (counted
    from 0) it refuses, and the outcomes of the [create-order] request. *)
Record SubmitOutcomes := mkSubmitOutcomes {
  new_order_id : string;
  order_insert_error : bool;
  item_insert_error : nat -> bool;
  edge : Outcomes }.

(** The loop over [items] that inserts the order items; it stops at the
    first refused insert.  [(itemError, order_items afterwards)]. *)
Fixpoint insert_order_items (fails : nat -> bool) (k : nat) (order_id' : string)
    (items : list CartItem) (rows : list OrderItem) : bool * list OrderItem :=
  match items with
  | [] => (false, rows)
  | item :: rest =>
      if fails k then (true, rows)
      else insert_order_items fails (S k) order_id' rest
             (rows ++ [order_item_row order_id' item])%list
  end.

(** The options the gateway widget is opened with (the fields that come
    from the [create-order] answer). *)
Record RazorpayOptions := mkRazorpayOptions {
  options_key : option Json;
  options_amount : option Json;
  options_currency : option Json;
  options_order_id : option Json }.

(** The checkout page after [handleSubmit]: the world, the [loading]
    flag, and the widget if it was opened. *)
Record Submitted := mkSubmitted {
  submitted_world : World;
  loading : bool;
  widget : option RazorpayOptions }.

Definition checkout_failed (w : World) (st : State) (message : string) : Submitted :=
  mkSubmitted (mkWorld st (toast (ToastError message) (page w))) false None.

(** [razorpayData?.error], as a condition. *)
Definition has_error (data : option (list (string * Json))) : bool :=
  match data with
  | Some fields =>
      match field "error" fields with Some j => truthy j | None => false end
  | None => false
  end.

(** [handleSubmit] of the checkout page for the signed-in [user], whose
    session the edge function sees as [session]; [items] is the cart.
    The gateway's script is taken as loaded, so that the widget opens. *)
Definition handleSubmit (env : Env) (so : SubmitOutcomes) (user : string)
    (session : option string) (formData : FormData) (items : list CartItem)
    (w : World) : Submitted :=
  match addressSchema_parse formData with
  | inr issues =>
      checkout_failed w (store w) (List.hd "" issues)
  | inl validatedData =>
      let orderTotal := (total items + SHIPPING_COST)%float in
      if order_insert_error so
      then checkout_failed w (store w) "Failed to process checkout. Please try again."
      else
        let order := mkOrder (new_order_id so) user (total items) SHIPPING_COST
                       orderTotal "pending" "razorpay" in
        let st1 := set_orders (orders (store w) ++ [order])%list (store w) in
        let '(itemError, rows) :=
          insert_order_items (item_insert_error so) 0 (order_id order) items
            (order_items st1) in
        let st2 := set_order_items rows st1 in
        if itemError
        then checkout_failed w st2 "Failed to process checkout. Please try again."
        else
          let '((razorpayData, razorpayError), st3) :=
            invoke env (edge so) session (CreateOrder (order_id order) orderTotal) st2 in
          if razorpayError || has_error razorpayData
          then checkout_failed w st3 "Failed to initialize payment. Please try again."
          else
            let fields := match razorpayData with Some fs => fs | None => [] end in
            mkSubmitted (mkWorld st3 (page w)) true
              (Some (mkRazorpayOptions (field "razorpay_key_id" fields)
                       (field "amount" fields) (field "currency" fields)
                       (field "razorpay_order_id" fields)))
  end.

(** ** The orders page *)

Definition mark_cancelled (o : Order) : Order :=
  mkOrder (order_id o) (order_user_id o) (order_subtotal o)
    (order_shipping_cost o) (order_total o) "cancelled" (order_payment_method o).

(** The [mutationFn] of [cancelOrderMutation]:
    [update({status: 'cancelled'}).eq('id', orderId).eq('user_id', user.id)].
    [(error, state afterwards)]. *)
Definition cancelOrder (fails : bool) (user orderId : string) (st : State)
    : bool * State :=
  let '(error, os) :=
    write fails
      (List.map (fun o => if String.eqb (order_id o) orderId
                             && String.eqb (order_user_id o) user
                          then mark_cancelled o else o) (orders st))
      (orders st) in
  (error, set_orders os st).

(** ** Recently viewed products *)

Record RecentlyViewedProduct := mkRecentlyViewedProduct {
  viewed_id : string;
  viewed_name : string;
  viewed_imageUrl : option string;
  viewed_price : float;
  viewed_category : string;
  viewedAt : Z }.

Definition MAX_ITEMS : nat := 10.

Definition viewed_now (now : Z) (p : RecentlyViewedProduct) : RecentlyViewedProduct :=
  mkRecentlyViewedProduct (viewed_id p) (viewed_name p) (viewed_imageUrl p)
    (viewed_price p) (viewed_category p) now.

(** [addProduct]: [now] is [Date.now()]. *)
Definition addProduct (now : Z) (product : RecentlyViewedProduct)
    (prev : list RecentlyViewedProduct) : list RecentlyViewedProduct :=
  let filtered :=
    List.filter (fun p => negb (String.eqb (viewed_id p) (viewed_id product))) prev in
  List.firstn MAX_ITEMS (viewed_now now product :: filtered).

(** ** More vocabulary of the statements *)

(** What identifies a Payment row and never changes once it is written. *)
Definition payment_identity (p : Payment)
    : string * string * string * float * string :=
  (payment_order_id p, payment_user_id p, razorpay_order_id p, payment_amount p,
   payment_currency p).

(** An Order row without its status and payment method. *)
Definition order_identity (o : Order) : string * string * float * float * float :=
  (order_id o, order_user_id o, order_subtotal o, order_shipping_cost o, order_total o).

(** The characters [0-9a-f]. *)
Definition is_lower_hex (c : ascii) : bool :=
  let n := N_of_ascii c in
  (((48 <=? n) && (n <=? 57)) || ((97 <=? n) && (n <=? 102)))%N.

(** ** More concrete data *)
Module Shop.

Definition shirt_product : Product := mkProduct "p1" "Linen Shirt" 20.

Definition shirt_variants : list VariantRow :=
  [ mkVariantRow "v0" "S" "blue" 0 0;
    mkVariantRow "v1" "M" "blue" 5 4.995 ].

Definition browsing : Page := mkPage [] [] "/products/p1".

Definition home : FormData :=
  mkFormData "Alice Example" "12 Mill Lane" "Pune" "MH" "411001" "9123456780".

Definition short_zip : FormData :=
  mkFormData "Alice Example" "12 Mill Lane" "Pune" "MH" "4110" "9123456780".

(** The store takes everything and names the order [order_A]; the gateway
    names its order [rzp_1]. *)
Definition smooth : SubmitOutcomes :=
  mkSubmitOutcomes "order_A" false (fun _ => false) Scenario.ok.

(** The store refuses the second order item. *)
Definition second_item_refused : SubmitOutcomes :=
  mkSubmitOutcomes "order_A" false (fun k => Nat.eqb k 1) Scenario.ok.

(** The gateway rejects the order. *)
Definition gateway_down : SubmitOutcomes :=
  mkSubmitOutcomes "order_A" false (fun _ => false)
    (no_faults (GatewayRejected "{}")).

Definition two_lines : list CartItem := [Scenario.shirt; Scenario.coat].

Definition start : World := Scenario.checkout Scenario.empty.

Definition viewed (id : string) (at_ : Z) : RecentlyViewedProduct :=
  mkRecentlyViewedProduct id "Linen Shirt" None 20 "shirts" at_.

End Shop.

(** The sum of the stored line totals, as [total] sums the cart. *)
Definition line_totals (rows : list OrderItem) : float :=
  List.fold_left (fun sum oi => (sum + item_total_price oi)%float) rows 0%float.

(** * Properties *)

(** The keyed hash is computed on closed data only. *)
Arguments createHmacSha256 : simpl never.
Arguments hmac_hex : simpl never.
Arguments expectedSignature : simpl never.
Arguments signature_mismatch : simpl never.

(** ** Known answers of the keyed hash *)

Example round_constants :
  List.firstn 2 WebCrypto.K256 = [0x428a2f98; 0x71374491]
  /\ List.nth 63 WebCrypto.K256 0 = 0xc67178f2
  /\ List.nth 0 WebCrypto.H256 0 = 0x6a09e667
  /\ List.nth 7 WebCrypto.H256 0 = 0x5be0cd19.
Proof. vm_compute. repeat split; reflexivity. Qed.

Example sha256_abc :
  decode (hexEncode (WebCrypto.sha256 (encode "abc")))
  = "ba7816bf8f01cfea414140de5dae2223b00361a396177a9cb410ff61f20015ad".
Proof. vm_compute. reflexivity. Qed.

Example hmac_quick_brown_fox :
  createHmacSha256 "key" "The quick brown fox jumps over the lazy dog"
  = Some "f7bc83f430538424b13298e6aa6fb143ef4d59a14946175997479dbc2d1a3cd8".
Proof. vm_compute. reflexivity. Qed.

Example hmac_long_key :
  createHmacSha256 (string_of_list_ascii (List.repeat "k"%char 70)) "order_A|pay_1"
  = Some "ab1fad9b42e6ed3b4d903c161c8595ed96d86cfe6f49b74d5cc9d5294da4ac55".
Proof. vm_compute. reflexivity. Qed.

Example Math_round_known_answers :
  (1.005 * 100 <? 100.5)%float = true
  /\ Math_round (1.005 * 100)%float = 100%float
  /\ Math_round (59.99 * 100)%float = 5999%float
  /\ Math_round 2.5%float = 3%float
  /\ Math_round (-2.5)%float = (-2)%float
  /\ Math_round 0.49999999999999994%float = 0%float
  /\ Math_round (-0.2)%float = (-0)%float
  /\ Math_round (-5 * 100)%float = (-500)%float
  /\ Math_round 4503599627370497%float = 4503599627370497%float.
Proof. vm_compute. repeat split; reflexivity. Qed.

Example callback_signature :
  expectedSignature Scenario.env "rzp_1" "pay_1"
  = response_razorpay_signature Scenario.callback.
Proof. vm_compute. reflexivity. Qed.

(** ** Table updates *)

Lemma update_eq_in {Row : Type} (col : Row -> string) v set rows r :
  In r (update_eq col v set rows) <->
  exists r0, In r0 rows /\ r = (if String.eqb (col r0) v then set r0 else r0).
Proof.
  unfold update_eq. rewrite in_map_iff.
  split; intros [r0 [H1 H2]]; exists r0; split; auto.
Qed.

Lemma update_eq_hit {Row : Type} (col : Row -> string) v set rows r0 :
  In r0 rows -> col r0 = v -> In (set r0) (update_eq col v set rows).
Proof.
  intros Hin Hcol. apply update_eq_in. exists r0. split; [exact Hin|].
  rewrite Hcol, String.eqb_refl. reflexivity.
Qed.

Lemma update_eq_miss {Row : Type} (col : Row -> string) v set rows :
  (forall r, In r rows -> col r <> v) -> update_eq col v set rows = rows.
Proof.
  intros Hne. unfold update_eq. induction rows as [|r rows IH]; simpl; [reflexivity|].
  rewrite IH by (intros r' Hr'; apply Hne; right; exact Hr').
  destruct (String.eqb_spec (col r) v) as [E|_]; [|reflexivity].
  exfalso. apply (Hne r); [left; reflexivity | exact E].
Qed.

Lemma update_eq_idem {Row : Type} (col : Row -> string) v set rows :
  (forall r, col (set r) = col r) -> (forall r, set (set r) = set r) ->
  update_eq col v set (update_eq col v set rows) = update_eq col v set rows.
Proof.
  intros Hcol Hset. unfold update_eq. rewrite List.map_map.
  apply List.map_ext. intros r.
  destruct (String.eqb (col r) v) eqn:E.
  - rewrite Hcol, E. apply Hset.
  - rewrite E. reflexivity.
Qed.

(** ** The inventory loop *)

Lemma update_inventory_item_other variants item v :
  v <> variantId item ->
  update_inventory_item variants item !! v = variants !! v.
Proof.
  intros Hne. unfold update_inventory_item.
  destruct (variants !! variantId item); [|reflexivity].
  apply lookup_insert_ne. congruence.
Qed.

Lemma update_inventory_item_same variants item s :
  variants !! variantId item = Some s ->
  update_inventory_item variants item !! variantId item = Some (s - quantity item).
Proof.
  intros Hs. unfold update_inventory_item. rewrite Hs. apply lookup_insert_eq.
Qed.

Lemma update_inventory_item_absent variants item :
  variants !! variantId item = None -> update_inventory_item variants item = variants.
Proof. intros Hs. unfold update_inventory_item. rewrite Hs. reflexivity. Qed.

(** The loop takes from each variant the quantities of all the lines that
    name it. *)
Lemma update_inventory_lookup items : forall variants v s,
  variants !! v = Some s ->
  update_inventory items variants !! v = Some (s - ordered v items).
Proof.
  induction items as [|item items IH]; intros variants v s Hs; simpl.
  - rewrite Hs. f_equal. lia.
  - destruct (String.eqb_spec (variantId item) v) as [E|E].
    + subst v. unfold update_inventory in IH.
      rewrite (IH _ _ (s - quantity item)).
      * f_equal. lia.
      * apply update_inventory_item_same. exact Hs.
    + unfold update_inventory in IH. apply IH.
      rewrite update_inventory_item_other by congruence. exact Hs.
Qed.

Lemma update_inventory_absent items : forall variants v,
  variants !! v = None -> update_inventory items variants !! v = None.
Proof.
  induction items as [|item items IH]; intros variants v Hs; simpl; [exact Hs|].
  unfold update_inventory in IH. apply IH.
  destruct (String.eqb_spec v (variantId item)) as [E|E].
  - subst v. rewrite update_inventory_item_absent; exact Hs.
  - rewrite update_inventory_item_other; [exact Hs | exact E].
Qed.

Lemma ordered_not_in v items :
  ~ In v (List.map variantId items) -> ordered v items = 0.
Proof.
  induction items as [|item items IH]; simpl; intros Hn; [reflexivity|].
  destruct (String.eqb_spec (variantId item) v) as [E|E].
  - exfalso. apply Hn. left. exact E.
  - apply IH. intros H. apply Hn. right. exact H.
Qed.

Lemma ordered_NoDup items item :
  List.NoDup (List.map variantId items) -> In item items ->
  ordered (variantId item) items = quantity item.
Proof.
  induction items as [|i items IH]; simpl; intros Hnd Hin; [contradiction|].
  apply List.NoDup_cons_iff in Hnd as [Hni Hnd].
  destruct Hin as [->|Hin].
  - rewrite String.eqb_refl, ordered_not_in by exact Hni. lia.
  - destruct (String.eqb_spec (variantId i) (variantId item)) as [E|E].
    + exfalso. apply Hni. rewrite E. apply List.in_map. exact Hin.
    + apply IH; assumption.
Qed.

(** ** The cart keeps one line per variant *)

Lemma addItem_variants item current :
  List.map variantId (addItem item current)
  = if List.existsb (fun i => String.eqb (variantId i) (variantId item)) current
    then List.map variantId current
    else (List.map variantId current ++ [variantId item])%list.
Proof.
  induction current as [|i rest IH]; simpl; [reflexivity|].
  destruct (String.eqb (variantId i) (variantId item)); simpl; [reflexivity|].
  rewrite IH. destruct (List.existsb _ rest); reflexivity.
Qed.

Lemma addItem_NoDup item current :
  List.NoDup (List.map variantId current) ->
  List.NoDup (List.map variantId (addItem item current)).
Proof.
  intros Hnd. rewrite addItem_variants.
  destruct (List.existsb _ current) eqn:E; [exact Hnd|].
  apply List.NoDup_app; [exact Hnd | repeat constructor; simpl; tauto |].
  intros v Hv [<-|[]].
  apply List.in_map_iff in Hv as [i [Hi Hin]].
  assert (List.existsb (fun i => String.eqb (variantId i) (variantId item)) current = true) as Ht.
  { apply List.existsb_exists. exists i. split; [exact Hin|].
    rewrite Hi. apply String.eqb_refl. }
  congruence.
Qed.

Lemma removeItem_NoDup v current :
  List.NoDup (List.map variantId current) ->
  List.NoDup (List.map variantId (removeItem v current)).
Proof.
  unfold removeItem. induction current as [|i rest IH]; simpl; intros Hnd; [exact Hnd|].
  apply List.NoDup_cons_iff in Hnd as [Hni Hnd].
  destruct (negb (String.eqb (variantId i) v)); simpl; [|exact (IH Hnd)].
  constructor; [|exact (IH Hnd)].
  intros Hin. apply Hni.
  apply List.in_map_iff in Hin as [j [Hj Hin]].
  apply List.filter_In in Hin as [Hin _].
  rewrite <- Hj. apply List.in_map. exact Hin.
Qed.

Lemma updateQuantity_NoDup v q current :
  List.NoDup (List.map variantId current) ->
  List.NoDup (List.map variantId (updateQuantity v q current)).
Proof.
  intros Hnd. unfold updateQuantity.
  destruct (q <=? 0); [apply removeItem_NoDup; exact Hnd|].
  rewrite List.map_map.
  erewrite List.map_ext; [exact Hnd|].
  intros i. simpl. destruct (String.eqb (variantId i) v); reflexivity.
Qed.

(** ** C7: the decrement *)

(** C7 (as stated, refuted): with stock 1 and quantity 2 the decrement
    does not fail and does not leave the stock alone: it writes -1. *)
Lemma decrement_writes_negative_stock :
  update_inventory_item (<["v1" := 1]> ∅) Scenario.shirt !! "v1" = Some (-1).
Proof. reflexivity. Qed.

(** C7 (amended): for a variant that exists the decrement writes
    [current - quantity] whatever the two numbers are, and touches no
    other variant; what it writes is non-negative exactly when the
    quantity does not exceed the current stock, and negative otherwise. *)
Theorem decrement_writes_difference variants item current :
  variants !! variantId item = Some current ->
  update_inventory_item variants item !! variantId item
    = Some (current - quantity item)
  /\ (forall v, v <> variantId item ->
        update_inventory_item variants item !! v = variants !! v)
  /\ (0 <= current - quantity item <-> quantity item <= current)
  /\ (current < quantity item -> current - quantity item < 0).
Proof.
  intros Hs. split; [|split; [|split]].
  - apply update_inventory_item_same. exact Hs.
  - intros v Hv. apply update_inventory_item_other. exact Hv.
  - lia.
  - lia.
Qed.

Lemma decrement_writes_difference_witness :
  update_inventory_item (<["v1" := 5]> ∅) Scenario.shirt !! "v1" = Some 3.
Proof.
  refine (proj1 (decrement_writes_difference (<["v1" := 5]> ∅) Scenario.shirt 5 _)).
  reflexivity.
Defined.

(** ** The [verify-payment] action, case by case *)

Lemma signature_mismatch_true env orderId paymentId sig :
  sig <> expectedSignature env orderId paymentId ->
  signature_mismatch env orderId paymentId sig = true.
Proof.
  intros Hne. unfold signature_mismatch.
  destruct (String.eqb_spec (expectedSignature env orderId paymentId) sig) as [E|_];
    [congruence | reflexivity].
Qed.

Lemma signature_mismatch_false env orderId paymentId sig :
  sig = expectedSignature env orderId paymentId ->
  signature_mismatch env orderId paymentId sig = false.
Proof.
  intros ->. unfold signature_mismatch. rewrite String.eqb_refl. reflexivity.
Qed.

Lemma set_payments_same st : set_payments (payments st) st = st.
Proof. destruct st. reflexivity. Qed.

Lemma set_orders_same st : set_orders (orders st) st = st.
Proof. destruct st. reflexivity. Qed.

Lemma createHmacSha256_set secret message :
  secret <> "" -> createHmacSha256 secret message = Some (hmac_hex secret message).
Proof.
  intros Hset. destruct secret as [|c secret]; [contradiction|]. reflexivity.
Qed.

Lemma createHmacSha256_empty message : createHmacSha256 "" message = None.
Proof. reflexivity. Qed.

Lemma verify_payment_with_set secret oc gid pid sig oid st :
  secret <> "" ->
  verify_payment_with secret oc gid pid sig oid st
  = if negb (String.eqb (hmac_hex secret (gid ++ "|" ++ pid)) sig)
    then
      (verification_failed,
       set_payments
         (snd (write (payments_write_error oc)
                 (update_eq razorpay_order_id gid mark_failed (payments st))
                 (payments st))) st)
    else
      (verified,
       set_orders
         (snd (write (orders_write_error oc)
                 (update_eq order_id oid mark_confirmed (orders st)) (orders st)))
         (set_payments
            (snd (write (payments_write_error oc)
                    (update_eq razorpay_order_id gid (mark_completed pid sig)
                       (payments st)) (payments st))) st)).
Proof.
  intros Hset. unfold verify_payment_with.
  rewrite (createHmacSha256_set _ _ Hset).
  destruct (negb (String.eqb (hmac_hex secret (gid ++ "|" ++ pid)) sig)); unfold write;
    destruct (payments_write_error oc), (orders_write_error oc); reflexivity.
Qed.

Lemma verify_payment_with_empty oc gid pid sig oid st :
  verify_payment_with "" oc gid pid sig oid st
  = (respond 500 [("error", JStr zero_length_key)], st).
Proof. reflexivity. Qed.

Lemma verify_payment_set env oc gid pid sig oid st :
  verify_payment env oc gid pid sig oid st
  = if signature_mismatch env gid pid sig
    then
      (verification_failed,
       set_payments
         (snd (write (payments_write_error oc)
                 (update_eq razorpay_order_id gid mark_failed (payments st))
                 (payments st))) st)
    else
      (verified,
       set_orders
         (snd (write (orders_write_error oc)
                 (update_eq order_id oid mark_confirmed (orders st)) (orders st)))
         (set_payments
            (snd (write (payments_write_error oc)
                    (update_eq razorpay_order_id gid (mark_completed pid sig)
                       (payments st)) (payments st))) st)).
Proof.
  unfold verify_payment.
  rewrite (verify_payment_with_set _ oc gid pid sig oid st (secret_is_set env)).
  reflexivity.
Qed.

Lemma verify_payment_mismatch env oc gid pid sig oid st :
  signature_mismatch env gid pid sig = true ->
  verify_payment env oc gid pid sig oid st
  = (verification_failed,
     set_payments
       (if payments_write_error oc then payments st
        else update_eq razorpay_order_id gid mark_failed (payments st)) st).
Proof.
  intros Hm. rewrite verify_payment_set, Hm. unfold write.
  destruct (payments_write_error oc); reflexivity.
Qed.

Lemma verify_payment_match env oc gid pid sig oid st :
  signature_mismatch env gid pid sig = false ->
  verify_payment env oc gid pid sig oid st
  = (verified,
     set_orders
       (if orders_write_error oc then orders st
        else update_eq order_id oid mark_confirmed (orders st))
       (set_payments
          (if payments_write_error oc then payments st
           else update_eq razorpay_order_id gid (mark_completed pid sig) (payments st))
          st)).
Proof.
  intros Hm. rewrite verify_payment_set, Hm. unfold write.
  destruct (payments_write_error oc), (orders_write_error oc); reflexivity.
Qed.

Lemma update_eq_selected {Row : Type} (col : Row -> string) v set rows r :
  (forall r0, col (set r0) = col r0) ->
  In r (update_eq col v set rows) -> col r = v ->
  exists r0, In r0 rows /\ col r0 = v /\ r = set r0.
Proof.
  intros Hcol Hin Hv. apply update_eq_in in Hin as [r0 [Hin ->]].
  destruct (String.eqb_spec (col r0) v) as [E|E].
  - exists r0. auto.
  - contradiction.
Qed.

Lemma serve_verify_payment env oc user gid pid sig oid st :
  serve env oc (mkRequest "POST" (Some user) (VerifyPayment gid pid sig oid)) st
  = verify_payment env oc gid pid sig oid st.
Proof. reflexivity. Qed.

(** The page's [handler] after a verified answer, and after any other. *)
Lemma handler_verified env oc user items oid response w :
  signature_mismatch env (response_razorpay_order_id response)
    (response_razorpay_payment_id response)
    (response_razorpay_signature response) = false ->
  let st1 := snd (verify_payment env oc (response_razorpay_order_id response)
                    (response_razorpay_payment_id response)
                    (response_razorpay_signature response) oid (store w)) in
  handler env oc (Some user) items oid response w
  = mkWorld
      (set_product_variants (update_inventory items (product_variants st1)) st1)
      (navigate "/orders"
         (toast (ToastSuccess "Payment successful! Order confirmed.")
                (clearCart (page w)))).
Proof.
  intros Hm. unfold handler, invoke.
  rewrite serve_verify_payment, (verify_payment_match _ _ _ _ _ _ _ Hm). reflexivity.
Qed.

Lemma handler_rejected env oc user items oid response w :
  signature_mismatch env (response_razorpay_order_id response)
    (response_razorpay_payment_id response)
    (response_razorpay_signature response) = true ->
  handler env oc (Some user) items oid response w
  = mkWorld
      (snd (verify_payment env oc (response_razorpay_order_id response)
              (response_razorpay_payment_id response)
              (response_razorpay_signature response) oid (store w)))
      (toast (ToastError "Payment verification failed. Please contact support.")
             (page w)).
Proof.
  intros Hm. unfold handler, invoke.
  rewrite serve_verify_payment, (verify_payment_mismatch _ _ _ _ _ _ _ Hm). reflexivity.
Qed.

(** ** C8: the signature verifier *)

Lemma replace_char_differs i c s :
  String.get i s <> None -> String.get i s <> Some c -> replace_char i c s <> s.
Proof.
  revert i. induction s as [|a s IH]; intros i Hsome Hc; simpl in *.
  - congruence.
  - destruct i as [|i]; simpl in *.
    + intros E. injection E as E. congruence.
    + intros E. injection E as E. exact (IH i Hsome Hc E).
Qed.

Lemma verified_is_not_failed : verified <> verification_failed.
Proof. unfold verified, verification_failed. discriminate. Qed.

(** C8 (as stated for every secret, refuted): under the empty secret,
    which is also what an unset variable is encoded to, [importKey]
    throws: [createHmacSha256] yields no signature and
    [verify-payment], given the very HMAC of [rzp_1|pay_1] under that
    secret, answers 500 instead of verifying it, and writes nothing. *)
Lemma empty_secret_verifies_nothing :
  let hmac := decode (hexEncode (WebCrypto.hmac_sha256 (encode "")
                                   (encode ("rzp_1" ++ "|" ++ "pay_1")))) in
  let result := verify_payment_with "" Scenario.ok "rzp_1" "pay_1" hmac "order_A"
                  Scenario.begun in
  hmac = "3abef9742979db18eacb86da58714b0ff2eabc71f451174c5edb4a3ed6a16c6e"
  /\ createHmacSha256 "" ("rzp_1" ++ "|" ++ "pay_1") = None
  /\ result = (respond 500 [("error", JStr "Key length is zero")], Scenario.begun)
  /\ fst result <> verified.
Proof.
  vm_compute. split; [reflexivity|]. split; [reflexivity|]. split; [reflexivity|].
  discriminate.
Qed.

(** C8 (amended): for every secret that is not empty and every pair of
    ids, [createHmacSha256] yields the lowercase hex text of the
    HMAC-SHA256 of the bytes of [orderId + "|" + paymentId] under the
    bytes of the secret; [verify-payment] answers [valid: true] for
    exactly that text and [valid: false] for every other, in particular
    for that text with any one character replaced by a different one.
    The keyed hash is the one of RFC 4231: it has the digests of the
    RFC's test cases. *)
Theorem verifier_accepts_exactly_the_hmac secret orderId paymentId i c :
  let hmac := decode (hexEncode (WebCrypto.hmac_sha256 (encode secret)
                                   (encode (orderId ++ "|" ++ paymentId)))) in
  secret <> "" ->
  String.get i hmac <> None -> String.get i hmac <> Some c ->
  createHmacSha256 secret (orderId ++ "|" ++ paymentId) = Some hmac
  /\ (forall oc sig order st,
        (fst (verify_payment_with secret oc orderId paymentId sig order st) = verified
         <-> sig = hmac)
        /\ (fst (verify_payment_with secret oc orderId paymentId sig order st)
            = verification_failed
            <-> sig <> hmac))
  /\ (forall oc order st,
        fst (verify_payment_with secret oc orderId paymentId (replace_char i c hmac)
               order st)
        = verification_failed)
  /\ (forall env oc user order st,
        RAZORPAY_KEY_SECRET env = secret ->
        fst (serve env oc
               (mkRequest "POST" (Some user) (VerifyPayment orderId paymentId hmac order))
               st) = verified
        /\ fst (serve env oc
                  (mkRequest "POST" (Some user)
                     (VerifyPayment orderId paymentId (replace_char i c hmac) order))
                  st) = verification_failed)
  /\ List.Forall
       (fun '(key, data, digest) =>
          decode (hexEncode (WebCrypto.hmac_sha256 key data)) = digest)
       rfc4231.
Proof.
  intros hmac Hset Hi Hc.
  assert (forall oc sig order st,
            fst (verify_payment_with secret oc orderId paymentId sig order st)
            = if String.eqb hmac sig then verified else verification_failed) as Hfst.
  { intros oc sig order st. rewrite (verify_payment_with_set _ _ _ _ _ _ _ Hset).
    change (hmac_hex secret (orderId ++ "|" ++ paymentId)) with hmac.
    destruct (String.eqb hmac sig); reflexivity. }
  assert (replace_char i c hmac <> hmac) as Hne
    by (apply replace_char_differs; assumption).
  split; [exact (createHmacSha256_set _ _ Hset)|]. split; [|split; [|split]].
  - intros oc sig order st. rewrite Hfst.
    destruct (String.eqb_spec hmac sig) as [E|E].
    + split; split; intros H; try congruence.
      exfalso. exact (verified_is_not_failed H).
    + split; split; intros H; try congruence.
      exfalso. exact (verified_is_not_failed (eq_sym H)).
  - intros oc order st. rewrite Hfst.
    destruct (String.eqb_spec hmac (replace_char i c hmac)) as [E|E];
      [congruence | reflexivity].
  - intros env oc user order st Henv. rewrite !serve_verify_payment.
    unfold verify_payment. rewrite Henv, !Hfst, String.eqb_refl.
    destruct (String.eqb_spec hmac (replace_char i c hmac)) as [E|E];
      [congruence | split; reflexivity].
  - unfold rfc4231.
    repeat (apply List.Forall_cons; [vm_compute; reflexivity|]). apply List.Forall_nil.
Qed.

Lemma verifier_accepts_exactly_the_hmac_witness :
  let hmac := "e53a0d6759ffe79748e84949615077862bb80dffc748cc0a803c9ce091ead722" in
  let forged := "f53a0d6759ffe79748e84949615077862bb80dffc748cc0a803c9ce091ead722" in
  createHmacSha256 "s3cr3t" ("rzp_1" ++ "|" ++ "pay_1") = Some hmac
  /\ fst (verify_payment_with "s3cr3t" Scenario.ok "rzp_1" "pay_1" hmac "order_A"
            Scenario.begun) = verified
  /\ fst (verify_payment_with "s3cr3t" Scenario.ok "rzp_1" "pay_1" forged "order_A"
            Scenario.begun) = verification_failed.
Proof.
  intros hmac forged.
  assert (decode (hexEncode (WebCrypto.hmac_sha256 (encode "s3cr3t")
                               (encode ("rzp_1" ++ "|" ++ "pay_1")))) = hmac) as Hh
    by (vm_compute; reflexivity).
  pose proof (verifier_accepts_exactly_the_hmac "s3cr3t" "rzp_1" "pay_1" 0 "f"%char) as H.
  cbv zeta in H. rewrite Hh in H.
  destruct H as (Hc & Hiff & Hko & _).
  - discriminate.
  - subst hmac. discriminate.
  - subst hmac. discriminate.
  - split; [exact Hc|]. split.
    + apply (proj1 (Hiff Scenario.ok hmac "order_A" Scenario.begun)). reflexivity.
    + exact (Hko Scenario.ok "order_A" Scenario.begun).
Defined.

(** ** C2: a signature that does not match *)

(** C2 (the code at the failing input): Alice's callback arrives with a
    signature that does not match, and the store does not apply the
    update of the Payment row (it fails, or a row policy filters it).
    [verify-payment] has discarded the result of that update: it answers
    400 with [valid: false] as it would have otherwise, and the Payment
    row of [rzp_1] is still [pending], with no error message; order,
    order items and stock are untouched. *)
Lemma unapplied_failure_mark_goes_unnoticed :
  let result := Scenario.verify Scenario.refused "alice" Scenario.forged "order_A"
                  Scenario.begun in
  let w' := handler Scenario.env Scenario.refused (Some "alice") Scenario.items "order_A"
              Scenario.forged (Scenario.checkout Scenario.begun) in
  signature_mismatch Scenario.env "rzp_1" "pay_1"
    (response_razorpay_signature Scenario.forged) = true
  /\ fst result = verification_failed
  /\ fst result = fst (Scenario.verify Scenario.ok "alice" Scenario.forged "order_A"
                         Scenario.begun)
  /\ List.map (fun p => (razorpay_order_id p, payment_status p, error_message p))
       (payments (snd result)) = [("rzp_1", "pending", None)]
  /\ List.map (fun p => (razorpay_order_id p, payment_status p, error_message p))
       (payments (snd (Scenario.verify Scenario.ok "alice" Scenario.forged "order_A"
                         Scenario.begun)))
     = [("rzp_1", "failed", Some "Signature verification failed")]
  /\ snd result = Scenario.begun
  /\ store w' = Scenario.begun.
Proof. vm_compute. repeat split; reflexivity. Qed.

(** A mismatch when the store applies the write: the edge function
    answers 400 with [valid: false]; the orders, the order items and
    every variant's stock are what they were, also after the page's
    handler has returned; and every Payment row of that gateway order id
    is [failed] with the message 'Signature verification failed'. *)
Theorem tampered_signature_fails_the_payment_only env oc user items oid response w :
  response_razorpay_signature response
    <> expectedSignature env (response_razorpay_order_id response)
         (response_razorpay_payment_id response) ->
  let gid := response_razorpay_order_id response in
  let req := mkRequest "POST" (Some user)
               (VerifyPayment gid (response_razorpay_payment_id response)
                  (response_razorpay_signature response) oid) in
  let w' := handler env oc (Some user) items oid response w in
  fst (serve env oc req (store w)) = verification_failed
  /\ store w' = snd (serve env oc req (store w))
  /\ orders (store w') = orders (store w)
  /\ order_items (store w') = order_items (store w)
  /\ product_variants (store w') = product_variants (store w)
  /\ cart (page w') = cart (page w)
  /\ (payments_write_error oc = false ->
      (forall p, In p (payments (store w)) -> razorpay_order_id p = gid ->
         In (mark_failed p) (payments (store w')))
      /\ (forall p, In p (payments (store w')) -> razorpay_order_id p = gid ->
            payment_status p = "failed"
            /\ error_message p = Some "Signature verification failed")
      /\ (forall p, In p (payments (store w)) -> razorpay_order_id p <> gid ->
            In p (payments (store w')))).
Proof.
  intros Hne gid req w'.
  pose proof (signature_mismatch_true _ _ _ _ Hne) as Hm.
  subst w' req gid. rewrite (handler_rejected _ _ _ _ _ _ _ Hm).
  rewrite serve_verify_payment, (verify_payment_mismatch _ _ _ _ _ _ _ Hm); simpl.
  do 6 (split; [reflexivity|]).
  intros Hw. rewrite Hw. split; [|split].
  - intros p Hin Hp. apply update_eq_hit; assumption.
  - intros p Hin Hp.
    apply update_eq_selected in Hin as [r0 [_ [_ ->]]]; auto.
  - intros p Hin Hp. apply update_eq_in. exists p. split; [exact Hin|].
    destruct (String.eqb_spec (razorpay_order_id p) (response_razorpay_order_id response));
      [contradiction|reflexivity].
Qed.

Lemma tampered_signature_fails_the_payment_only_witness :
  let w := Scenario.checkout Scenario.begun in
  let w' := handler Scenario.env Scenario.ok (Some "alice") Scenario.items "order_A"
              Scenario.forged w in
  orders (store w') = orders (store w)
  /\ product_variants (store w') = product_variants (store w)
  /\ (forall p, In p (payments (store w')) -> razorpay_order_id p = "rzp_1" ->
        payment_status p = "failed"
        /\ error_message p = Some "Signature verification failed").
Proof.
  intros w w'.
  assert (response_razorpay_signature Scenario.forged
          <> expectedSignature Scenario.env
               (response_razorpay_order_id Scenario.forged)
               (response_razorpay_payment_id Scenario.forged)) as Hne
    by (vm_compute; discriminate).
  destruct (tampered_signature_fails_the_payment_only Scenario.env Scenario.ok "alice"
              Scenario.items "order_A" Scenario.forged w Hne)
    as (_ & _ & Ho & _ & Hv & _ & Hp).
  split; [exact Ho|]. split; [exact Hv|].
  exact (proj1 (proj2 (Hp eq_refl))).
Defined.

(** ** C10: the two updates of [verify-payment] are keyed independently *)

(** C10: for a payload whose signature verifies, the Payment rows written
    are those whose gateway order id is the payload's, the Order rows
    written are those whose id is the payload's [orderId], and nothing
    compares the two: the order named by the payload is marked
    [confirmed] even when the Payment row refers to another order. *)
Theorem confirm_updates_are_unlinked env oc user gid pid sig oid st :
  sig = expectedSignature env gid pid ->
  orders_write_error oc = false ->
  let result := serve env oc (mkRequest "POST" (Some user)
                                (VerifyPayment gid pid sig oid)) st in
  fst result = verified
  /\ orders (snd result) = update_eq order_id oid mark_confirmed (orders st)
  /\ (payments_write_error oc = false ->
      payments (snd result)
      = update_eq razorpay_order_id gid (mark_completed pid sig) (payments st))
  /\ (forall p o,
        In p (payments st) -> razorpay_order_id p = gid -> payment_order_id p <> oid ->
        In o (orders st) -> order_id o = oid ->
        In (mark_confirmed o) (orders (snd result)))
  /\ (forall o', In o' (orders (snd result)) -> order_id o' = oid ->
        order_status o' = "confirmed").
Proof.
  intros Hsig Ho result. subst result.
  rewrite serve_verify_payment,
    (verify_payment_match _ _ _ _ _ _ _ (signature_mismatch_false _ _ _ _ Hsig)).
  simpl. rewrite Ho.
  split; [reflexivity|]. split; [reflexivity|]. split; [|split].
  - intros Hp. rewrite Hp. reflexivity.
  - intros p o _ _ _ Hin Hid. apply update_eq_hit; assumption.
  - intros o' Hin Hid.
    apply update_eq_selected in Hin as [r0 [_ [_ ->]]]; auto.
Qed.

Lemma confirm_updates_are_unlinked_witness :
  let result := Scenario.verify Scenario.ok "alice" Scenario.callback "order_B"
                  Scenario.two_orders in
  List.map payment_order_id (payments Scenario.two_orders) = ["order_A"]
  /\ fst result = verified
  /\ (forall o', In o' (orders (snd result)) -> order_id o' = "order_B" ->
        order_status o' = "confirmed").
Proof.
  intros result.
  assert (response_razorpay_signature Scenario.callback
          = expectedSignature Scenario.env "rzp_1" "pay_1") as Hsig
    by (vm_compute; reflexivity).
  destruct (confirm_updates_are_unlinked Scenario.env Scenario.ok "alice" "rzp_1" "pay_1"
              (response_razorpay_signature Scenario.callback) "order_B"
              Scenario.two_orders Hsig eq_refl)
    as (Hr & _ & _ & _ & Hc).
  split; [reflexivity|]. split; [exact Hr | exact Hc].
Defined.

(** ** C4: a gateway order id that no Payment row carries *)

(** C4 (as stated, refuted): no Payment row exists, the signature
    verifies: the edge function answers 200 with [valid: true], not
    NotFound, and the order named by the payload is confirmed. *)
Lemma unknown_gateway_order_is_confirmed :
  let result := Scenario.verify Scenario.ok "alice" Scenario.callback "order_A"
                  Scenario.placed in
  payments Scenario.placed = []
  /\ fst result = verified
  /\ status (fst result) = 200
  /\ List.map order_status (orders Scenario.placed) = ["pending"]
  /\ List.map order_status (orders (snd result)) = ["confirmed"].
Proof. vm_compute. repeat split; reflexivity. Qed.

(** C4 (amended): when no Payment row carries the gateway order id, the
    payments table is left as it was and no NotFound is raised: a
    signature that verifies gets 200 with [valid: true] and, the store
    applying the write, the order named by the payload confirmed; a
    signature that does not verify gets 400 with [valid: false] and
    nothing is written. *)
Theorem confirm_without_payment_row env oc user gid pid sig oid st :
  (forall p, In p (payments st) -> razorpay_order_id p <> gid) ->
  let result := serve env oc (mkRequest "POST" (Some user)
                                (VerifyPayment gid pid sig oid)) st in
  payments (snd result) = payments st
  /\ (sig = expectedSignature env gid pid ->
      fst result = verified
      /\ (orders_write_error oc = false ->
          orders (snd result) = update_eq order_id oid mark_confirmed (orders st)))
  /\ (sig <> expectedSignature env gid pid ->
      fst result = verification_failed /\ snd result = st).
Proof.
  intros Hnone result. subst result. rewrite serve_verify_payment.
  destruct (signature_mismatch env gid pid sig) eqn:Hm.
  - rewrite (verify_payment_mismatch _ _ _ _ _ _ _ Hm); simpl.
    rewrite (update_eq_miss _ _ _ _ Hnone).
    assert ((if payments_write_error oc then payments st else payments st)
            = payments st) as -> by (destruct (payments_write_error oc); reflexivity).
    split; [reflexivity|]. split.
    + intros Hsig. rewrite (signature_mismatch_false _ _ _ _ Hsig) in Hm. discriminate.
    + intros _. split; [reflexivity | apply set_payments_same].
  - rewrite (verify_payment_match _ _ _ _ _ _ _ Hm); simpl.
    rewrite (update_eq_miss _ _ _ _ Hnone).
    assert ((if payments_write_error oc then payments st else payments st)
            = payments st) as -> by (destruct (payments_write_error oc); reflexivity).
    split; [reflexivity|]. split.
    + intros _. split; [reflexivity|]. intros Ho. rewrite Ho. reflexivity.
    + intros Hne. rewrite (signature_mismatch_true _ _ _ _ Hne) in Hm. discriminate.
Qed.

Lemma confirm_without_payment_row_witness :
  let result := Scenario.verify Scenario.ok "alice" Scenario.callback "order_A"
                  Scenario.placed in
  payments (snd result) = payments Scenario.placed /\ fst result = verified.
Proof.
  intros result.
  destruct (confirm_without_payment_row Scenario.env Scenario.ok "alice" "rzp_1" "pay_1"
              (response_razorpay_signature Scenario.callback) "order_A" Scenario.placed)
    as (Hp & Hv & _).
  - intros p [].
  - split; [exact Hp|]. apply Hv. vm_compute. reflexivity.
Defined.

(** ** C5: a store write that fails during [verify-payment] *)

(** C5 (the code at the failing input): both updates of a verified
    callback are refused by the store.  The edge function still answers
    200 with [valid: true]; the Payment row stays [pending] and the Order
    row stays [pending]; the page reports success and takes the stock
    from 5 to 3. *)
Lemma store_error_answered_as_success :
  let result := Scenario.verify Scenario.refused "alice" Scenario.callback "order_A"
                  Scenario.begun in
  let w' := Scenario.confirm Scenario.refused (Scenario.checkout Scenario.begun) in
  fst result = verified
  /\ snd result = Scenario.begun
  /\ List.map payment_status (payments (store w')) = ["pending"]
  /\ List.map order_status (orders (store w')) = ["pending"]
  /\ product_variants (store w') !! "v1" = Some 3
  /\ toasts (page w') = [ToastSuccess "Payment successful! Order confirmed."].
Proof. vm_compute. repeat split; reflexivity. Qed.

(** Whatever the store does with the two updates, a signature that
    verifies is answered with the same success. *)
Lemma verify_payment_answer_ignores_store env oc oc' gid pid sig oid st st' :
  signature_mismatch env gid pid sig = false ->
  fst (verify_payment env oc gid pid sig oid st)
  = fst (verify_payment env oc' gid pid sig oid st').
Proof.
  intros Hm. rewrite !(verify_payment_match _ _ _ _ _ _ _ Hm). reflexivity.
Qed.

(** Nor does the answer to a signature that does not verify depend on
    what the store does with the update that marks the Payment row. *)
Lemma rejection_answer_ignores_store env oc oc' gid pid sig oid st st' :
  signature_mismatch env gid pid sig = true ->
  fst (verify_payment env oc gid pid sig oid st)
  = fst (verify_payment env oc' gid pid sig oid st').
Proof.
  intros Hm. rewrite !(verify_payment_mismatch _ _ _ _ _ _ _ Hm). reflexivity.
Qed.

Lemma rejection_with_unapplied_update env oc gid pid sig oid st :
  signature_mismatch env gid pid sig = true ->
  payments_write_error oc = true ->
  verify_payment env oc gid pid sig oid st = (verification_failed, st).
Proof.
  intros Hm Hw. rewrite (verify_payment_mismatch _ _ _ _ _ _ _ Hm), Hw.
  rewrite set_payments_same. reflexivity.
Qed.

(** The sibling action does surface a failed write: a refused insert of
    the Payment row is answered with 500. *)
Lemma create_order_surfaces_store_error env g id user orderId amount st :
  g = GatewayOk id ->
  fst (create_order env (mkOutcomes g true false) user orderId amount st)
  = respond 500 [("error", JStr "Failed to store payment record")].
Proof. intros ->. reflexivity. Qed.

(** ** C3: who may call *)

(** C3 (as stated, refuted): Mallory, signed in, begins a payment for
    Alice's order: the answer is 200 and a Payment row for that order is
    written under Mallory's id. *)
Lemma begin_by_another_user_is_served :
  let result := Scenario.begin "mallory" "order_A" 59.99 "rzp_9" Scenario.placed in
  List.map order_user_id (orders Scenario.placed) = ["alice"]
  /\ status (fst result) = 200
  /\ payments Scenario.placed = []
  /\ List.map (fun p => (payment_order_id p, payment_user_id p, payment_status p))
              (payments (snd result)) = [("order_A", "mallory", "pending")].
Proof. vm_compute. repeat split; reflexivity. Qed.

Lemma update_eq_set_owner f oid os :
  update_eq order_id oid mark_confirmed (List.map (set_owner f) os)
  = List.map (set_owner f) (update_eq order_id oid mark_confirmed os).
Proof.
  unfold update_eq. rewrite !List.map_map. apply List.map_ext. intros o. simpl.
  destruct (String.eqb (order_id o) oid); reflexivity.
Qed.

Lemma create_order_reown env oc user orderId amount f st :
  create_order env oc user orderId amount (reown f st)
  = (fst (create_order env oc user orderId amount st),
     reown f (snd (create_order env oc user orderId amount st))).
Proof.
  unfold create_order, write.
  destruct (gateway oc); try reflexivity.
  destruct (payments_write_error oc); reflexivity.
Qed.

Lemma verify_payment_reown env oc gid pid sig oid f st :
  verify_payment env oc gid pid sig oid (reown f st)
  = (fst (verify_payment env oc gid pid sig oid st),
     reown f (snd (verify_payment env oc gid pid sig oid st))).
Proof.
  destruct (signature_mismatch env gid pid sig) eqn:Hm.
  - rewrite !(verify_payment_mismatch _ _ _ _ _ _ _ Hm). reflexivity.
  - rewrite !(verify_payment_match _ _ _ _ _ _ _ Hm). simpl.
    unfold reown, set_orders, set_payments; simpl.
    rewrite update_eq_set_owner.
    destruct (orders_write_error oc); reflexivity.
Qed.

(** C3 (amended): [create-order] and [verify-payment] answer 401
    Unauthorized, writing nothing, exactly when the request carries no
    authenticated user.  The caller is never compared with the owner of
    the order: answer and writes are the same whoever owns the orders. *)
Theorem unauthorized_only_without_a_user env oc req st :
  method req <> "OPTIONS" ->
  (auth_user req = None -> serve env oc req st = (unauthorized, st))
  /\ (forall user, auth_user req = Some user ->
        status (fst (serve env oc req st)) <> 401)
  /\ (forall f, serve env oc req (reown f st)
                = (fst (serve env oc req st), reown f (snd (serve env oc req st)))).
Proof.
  intros Hmethod. unfold serve.
  destruct (String.eqb_spec (method req) "OPTIONS") as [E|_]; [contradiction|].
  split; [|split].
  - intros ->. reflexivity.
  - intros user ->. destruct (body req) as [orderId amount|gid pid sig oid|a|m].
    + unfold create_order, write. destruct (gateway oc); simpl; try discriminate.
      destruct (payments_write_error oc); simpl; discriminate.
    + destruct (signature_mismatch env gid pid sig) eqn:Hm.
      * rewrite (verify_payment_mismatch _ _ _ _ _ _ _ Hm). simpl. discriminate.
      * rewrite (verify_payment_match _ _ _ _ _ _ _ Hm). simpl. discriminate.
    + discriminate.
    + discriminate.
  - intros f. destruct (auth_user req) as [user|]; [|reflexivity].
    destruct (body req) as [orderId amount|gid pid sig oid|a|m]; try reflexivity.
    + apply create_order_reown.
    + apply verify_payment_reown.
Qed.

Lemma unauthorized_only_without_a_user_witness :
  serve Scenario.env Scenario.ok
    (mkRequest "POST" None (CreateOrder "order_A" 59.99)) Scenario.placed
  = (unauthorized, Scenario.placed).
Proof.
  refine (proj1 (unauthorized_only_without_a_user Scenario.env Scenario.ok
                   (mkRequest "POST" None (CreateOrder "order_A" 59.99))
                   Scenario.placed _) eq_refl).
  simpl. discriminate.
Defined.

(** ** The page's [handler] on a verified callback *)

Lemma handler_store env oc user items oid response w :
  response_razorpay_signature response
  = expectedSignature env (response_razorpay_order_id response)
      (response_razorpay_payment_id response) ->
  payments_write_error oc = false ->
  orders_write_error oc = false ->
  store (handler env oc (Some user) items oid response w)
  = mkState
      (update_eq razorpay_order_id (response_razorpay_order_id response)
         (mark_completed (response_razorpay_payment_id response)
            (response_razorpay_signature response))
         (payments (store w)))
      (update_eq order_id oid mark_confirmed (orders (store w)))
      (order_items (store w))
      (update_inventory items (product_variants (store w)))
      (razorpay_orders (store w)).
Proof.
  intros Hsig Hp Ho.
  pose proof (signature_mismatch_false _ _ _ _ Hsig) as Hm.
  rewrite (handler_verified _ _ _ _ _ _ _ Hm).
  rewrite (verify_payment_match _ _ _ _ _ _ _ Hm), Hp, Ho. reflexivity.
Qed.

Lemma handler_page env oc user items oid response w :
  response_razorpay_signature response
  = expectedSignature env (response_razorpay_order_id response)
      (response_razorpay_payment_id response) ->
  page (handler env oc (Some user) items oid response w)
  = mkPage [] (toasts (page w) ++ [ToastSuccess "Payment successful! Order confirmed."])
      "/orders".
Proof.
  intros Hsig.
  pose proof (signature_mismatch_false _ _ _ _ Hsig) as Hm.
  rewrite (handler_verified _ _ _ _ _ _ _ Hm). reflexivity.
Qed.

Lemma stock_after_loop items item s variants :
  List.NoDup (List.map variantId items) -> In item items ->
  variants !! variantId item = Some s ->
  update_inventory items variants !! variantId item = Some (s - quantity item).
Proof.
  intros Hnd Hin Hs.
  rewrite (update_inventory_lookup items variants _ s Hs).
  rewrite (ordered_NoDup items item Hnd Hin). reflexivity.
Qed.

(** ** C6: a successful confirmation *)

(** C6 (the code at the failing input): Alice's callback verifies and
    the store applies the update of the order but not that of the
    Payment row.  [verify-payment] answers 200 with [valid: true], the
    page reports success and takes the stock from 5 to 3, the order goes
    from [pending] to [confirmed], and the Payment row is still
    [pending], not [completed]. *)
Lemma confirm_succeeds_with_the_payment_pending :
  let oc := Scenario.payment_update_refused in
  let result := Scenario.verify oc "alice" Scenario.callback "order_A" Scenario.begun in
  let w' := Scenario.confirm oc (Scenario.checkout Scenario.begun) in
  fst result = verified
  /\ List.map order_status (orders Scenario.begun) = ["pending"]
  /\ List.map order_status (orders (store w')) = ["confirmed"]
  /\ List.map payment_status (payments (store w')) = ["pending"]
  /\ product_variants Scenario.begun !! "v1" = Some 5
  /\ product_variants (store w') !! "v1" = Some 3
  /\ cart (page w') = []
  /\ toasts (page w') = [ToastSuccess "Payment successful! Order confirmed."]
  /\ location (page w') = "/orders".
Proof. vm_compute. repeat split; reflexivity. Qed.

(** What a verified callback does when the store applies both updates,
    for an order whose items are the lines of the page's cart (one line
    per variant): afterwards the order, if it was [pending], is
    [confirmed], the Payment rows of the gateway order id are
    [completed], and the stock of the variant of every order item is its
    stock before minus the item's quantity.  With a single item of
    quantity 2 on a variant of stock 5, the stock is 3. *)
Theorem confirm_success env oc user items oid response w :
  response_razorpay_signature response
  = expectedSignature env (response_razorpay_order_id response)
      (response_razorpay_payment_id response) ->
  payments_write_error oc = false ->
  orders_write_error oc = false ->
  List.NoDup (List.map variantId items) ->
  List.filter (fun oi => String.eqb (item_order_id oi) oid) (order_items (store w))
  = List.map (order_item_row oid) items ->
  let w' := handler env oc (Some user) items oid response w in
  (forall o, In o (orders (store w)) -> order_id o = oid -> order_status o = "pending" ->
     In (mark_confirmed o) (orders (store w')))
  /\ (forall o', In o' (orders (store w')) -> order_id o' = oid ->
        order_status o' = "confirmed")
  /\ (forall p, In p (payments (store w)) ->
        razorpay_order_id p = response_razorpay_order_id response ->
        In (mark_completed (response_razorpay_payment_id response)
              (response_razorpay_signature response) p) (payments (store w')))
  /\ (forall p', In p' (payments (store w')) ->
        razorpay_order_id p' = response_razorpay_order_id response ->
        payment_status p' = "completed")
  /\ (forall oi stock_before,
        In oi (order_items (store w)) -> item_order_id oi = oid ->
        product_variants (store w) !! item_variant_id oi = Some stock_before ->
        product_variants (store w') !! item_variant_id oi
        = Some (stock_before - item_quantity oi))
  /\ (forall oi,
        List.filter (fun oi => String.eqb (item_order_id oi) oid) (order_items (store w))
        = [oi] ->
        item_quantity oi = 2 ->
        product_variants (store w) !! item_variant_id oi = Some 5 ->
        product_variants (store w') !! item_variant_id oi = Some 3)
  /\ toasts (page w')
     = (toasts (page w) ++ [ToastSuccess "Payment successful! Order confirmed."])%list.
Proof.
  intros Hsig Hp Ho Hnd Hitems w'.
  assert (forall oi stock_before,
            In oi (order_items (store w)) -> item_order_id oi = oid ->
            product_variants (store w) !! item_variant_id oi = Some stock_before ->
            product_variants (store w') !! item_variant_id oi
            = Some (stock_before - item_quantity oi)) as Hstock.
  { intros oi s Hin Hid Hs. subst w'.
    rewrite (handler_store _ _ _ _ _ _ _ Hsig Hp Ho). simpl.
    assert (In oi (List.map (order_item_row oid) items)) as Hrow.
    { rewrite <- Hitems. apply List.filter_In. split; [exact Hin|].
      rewrite Hid. apply String.eqb_refl. }
    apply List.in_map_iff in Hrow as [item [<- Hitem]]. simpl in *.
    apply stock_after_loop; assumption. }
  subst w'. rewrite (handler_page _ _ _ _ _ _ _ Hsig).
  rewrite (handler_store _ _ _ _ _ _ _ Hsig Hp Ho) in *. simpl.
  split; [|split; [|split; [|split; [|split; [|split]]]]].
  - intros o Hin Hid _. apply update_eq_hit; assumption.
  - intros o' Hin Hid.
    apply update_eq_selected in Hin as [r0 [_ [_ ->]]]; auto.
  - intros p Hin Hid. apply update_eq_hit; assumption.
  - intros p' Hin Hid.
    apply update_eq_selected in Hin as [r0 [_ [_ ->]]]; auto.
  - exact Hstock.
  - intros oi Hone Hq Hs.
    assert (In oi (List.filter (fun oi => String.eqb (item_order_id oi) oid)
                     (order_items (store w)))) as Hin
      by (rewrite Hone; left; reflexivity).
    apply List.filter_In in Hin as [Hin Hid].
    apply String.eqb_eq in Hid.
    simpl in Hstock. rewrite (Hstock oi 5 Hin Hid Hs), Hq. reflexivity.
  - reflexivity.
Qed.

(** The scenario of the order of total 59.99: one line of quantity 2 on a
    variant of stock 5. *)
Lemma confirm_success_witness :
  let w' := Scenario.confirm Scenario.ok (Scenario.checkout Scenario.begun) in
  (forall o', In o' (orders (store w')) -> order_id o' = "order_A" ->
     order_status o' = "confirmed")
  /\ (forall p', In p' (payments (store w')) -> razorpay_order_id p' = "rzp_1" ->
        payment_status p' = "completed")
  /\ product_variants (store w') !! "v1" = Some 3.
Proof.
  intros w'.
  assert (response_razorpay_signature Scenario.callback
          = expectedSignature Scenario.env
              (response_razorpay_order_id Scenario.callback)
              (response_razorpay_payment_id Scenario.callback)) as Hsig
    by (vm_compute; reflexivity).
  assert (List.NoDup (List.map variantId Scenario.items)) as Hnd
    by (repeat constructor; simpl; tauto).
  destruct (confirm_success Scenario.env Scenario.ok "alice" Scenario.items "order_A"
              Scenario.callback (Scenario.checkout Scenario.begun)
              Hsig eq_refl eq_refl Hnd eq_refl)
    as (_ & Ho & _ & Hp & _ & Hthree & _).
  split; [exact Ho|]. split; [exact Hp|].
  exact (Hthree (order_item_row "order_A" Scenario.shirt) eq_refl eq_refl eq_refl).
Defined.

Example scenario_totals :
  List.map (fun o => (order_subtotal o, order_shipping_cost o, order_total o,
                      order_status o))
           (orders Scenario.begun)
  = [(49.99%float, 10%float, 59.99%float, "pending")]
  /\ List.map rzp_amount (razorpay_orders Scenario.begun) = [5999%float]
  /\ product_variants Scenario.begun !! "v1" = Some 5.
Proof. vm_compute. repeat split; reflexivity. Qed.

(** ** C1: the same callback handled twice *)

(** C1 (as stated, refuted): after Alice's callback has been handled once
    the Payment row is [completed] and the stock is 3; handling the
    identical callback again takes the stock to 1: two decrements. *)
Lemma second_confirm_decrements_again :
  let w0 := Scenario.checkout Scenario.begun in
  let w1 := Scenario.confirm Scenario.ok w0 in
  let w2 := Scenario.confirm Scenario.ok w1 in
  List.map payment_status (payments (store w1)) = ["completed"]
  /\ product_variants (store w0) !! "v1" = Some 5
  /\ product_variants (store w1) !! "v1" = Some 3
  /\ product_variants (store w2) !! "v1" = Some 1.
Proof. vm_compute. repeat split; reflexivity. Qed.

Lemma mark_completed_idem gid pid sig ps :
  update_eq razorpay_order_id gid (mark_completed pid sig)
    (update_eq razorpay_order_id gid (mark_completed pid sig) ps)
  = update_eq razorpay_order_id gid (mark_completed pid sig) ps.
Proof. apply update_eq_idem; intros p; reflexivity. Qed.

Lemma mark_confirmed_idem oid os :
  update_eq order_id oid mark_confirmed (update_eq order_id oid mark_confirmed os)
  = update_eq order_id oid mark_confirmed os.
Proof. apply update_eq_idem; intros o; reflexivity. Qed.

(** C1 (amended): handling the identical valid callback a second time
    reports success again and leaves the Payment and Order rows exactly
    as the first handling left them, but the inventory loop runs again:
    every line's variant is decremented once per handling, twice in all. *)
Theorem second_confirm_repeats_the_decrement env oc user items oid response w :
  response_razorpay_signature response
  = expectedSignature env (response_razorpay_order_id response)
      (response_razorpay_payment_id response) ->
  payments_write_error oc = false ->
  orders_write_error oc = false ->
  List.NoDup (List.map variantId items) ->
  let w1 := handler env oc (Some user) items oid response w in
  let w2 := handler env oc (Some user) items oid response w1 in
  payments (store w2) = payments (store w1)
  /\ orders (store w2) = orders (store w1)
  /\ toasts (page w2)
     = (toasts (page w1) ++ [ToastSuccess "Payment successful! Order confirmed."])%list
  /\ (forall item stock_before,
        In item items ->
        product_variants (store w) !! variantId item = Some stock_before ->
        product_variants (store w1) !! variantId item
        = Some (stock_before - quantity item)
        /\ product_variants (store w2) !! variantId item
           = Some (stock_before - quantity item - quantity item)).
Proof.
  intros Hsig Hp Ho Hnd w1 w2. subst w2.
  rewrite (handler_page _ _ _ _ _ _ w1 Hsig).
  rewrite (handler_store _ _ _ _ _ _ w1 Hsig Hp Ho). subst w1.
  rewrite (handler_store _ _ _ _ _ _ w Hsig Hp Ho).
  cbn [store page payments orders product_variants toasts].
  split; [apply mark_completed_idem|].
  split; [apply mark_confirmed_idem|].
  split; [reflexivity|].
  intros item s Hin Hs.
  assert (update_inventory items (product_variants (store w)) !! variantId item
          = Some (s - quantity item)) as H1
    by (apply stock_after_loop; assumption).
  split; [exact H1|].
  apply stock_after_loop; assumption.
Qed.

Lemma second_confirm_repeats_the_decrement_witness :
  let w0 := Scenario.checkout Scenario.begun in
  let w1 := Scenario.confirm Scenario.ok w0 in
  let w2 := Scenario.confirm Scenario.ok w1 in
  payments (store w2) = payments (store w1)
  /\ orders (store w2) = orders (store w1)
  /\ product_variants (store w2) !! "v1" = Some (5 - 2 - 2).
Proof.
  intros w0 w1 w2.
  assert (response_razorpay_signature Scenario.callback
          = expectedSignature Scenario.env
              (response_razorpay_order_id Scenario.callback)
              (response_razorpay_payment_id Scenario.callback)) as Hsig
    by (vm_compute; reflexivity).
  assert (List.NoDup (List.map variantId Scenario.items)) as Hnd
    by (repeat constructor; simpl; tauto).
  destruct (second_confirm_repeats_the_decrement Scenario.env Scenario.ok "alice"
              Scenario.items "order_A" Scenario.callback w0 Hsig eq_refl eq_refl Hnd)
    as (Hp & Ho & _ & Hstock).
  split; [exact Hp|]. split; [exact Ho|].
  exact (proj2 (Hstock Scenario.shirt 5 (or_introl eq_refl) eq_refl)).
Defined.

(** * Further properties *)

(** ** The [create-order] action *)

(** X1: when the gateway rejects the order or cannot be reached,
    [create-order] writes nothing at all and answers 400, with the
    gateway's details, or 500, with the error message. *)
Theorem create_order_gateway_failure_writes_nothing env oc user orderId amount st :
  (forall id, gateway oc <> GatewayOk id) ->
  let result := serve env oc (mkRequest "POST" (Some user) (CreateOrder orderId amount)) st in
  snd result = st
  /\ (forall details, gateway oc = GatewayRejected details ->
        fst result = respond 400 [("error", JStr "Failed to create Razorpay order");
                                  ("details", JRaw details)])
  /\ (forall message, gateway oc = GatewayThrows message ->
        fst result = respond 500 [("error", JStr message)]).
Proof.
  intros Hno result. subst result.
  change (serve env oc (mkRequest "POST" (Some user) (CreateOrder orderId amount)) st)
    with (create_order env oc user orderId amount st).
  unfold create_order.
  destruct (gateway oc) as [id|details|message].
  - exfalso. exact (Hno id eq_refl).
  - split; [reflexivity|]. split.
    + intros d Hd. injection Hd as <-. reflexivity.
    + intros m Hm. discriminate.
  - split; [reflexivity|]. split.
    + intros d Hd. discriminate.
    + intros m Hm. injection Hm as <-. reflexivity.
Qed.

Lemma create_order_gateway_failure_writes_nothing_witness :
  let result := serve Scenario.env (edge Shop.gateway_down)
                  (mkRequest "POST" (Some "alice") (CreateOrder "order_A" 59.99))
                  Scenario.placed in
  snd result = Scenario.placed /\ status (fst result) = 400.
Proof.
  intros result.
  destruct (create_order_gateway_failure_writes_nothing Scenario.env
              (edge Shop.gateway_down) "alice" "order_A" 59.99 Scenario.placed)
    as (Hst & Hrej & _).
  - intros id. simpl. discriminate.
  - split; [exact Hst|]. subst result. rewrite (Hrej "{}" eq_refl). reflexivity.
Defined.

(** X2: when the gateway accepts and the store takes the row,
    [create-order] appends exactly one Payment row, [pending], carrying
    the caller's id, the order id and the amount as they were sent and the
    gateway's order id; it does so for any amount and any order id, without
    reading the orders table; the rows that were there, the orders, the
    order items and the stock are as before.  The answer carries the
    gateway's id, the public key and the amount in paise, which is
    [Math.round] of the double product [amount * 100]: for 1.005 that is
    100, the product being 100.49999999999999. *)
Theorem create_order_records_pending_payment env oc user orderId amount id st :
  gateway oc = GatewayOk id ->
  payments_write_error oc = false ->
  let result := serve env oc (mkRequest "POST" (Some user) (CreateOrder orderId amount)) st in
  fst result = respond 200 [("razorpay_order_id", JStr id);
                            ("razorpay_key_id", JStr (RAZORPAY_KEY_ID env));
                            ("amount", JNum (Math_round (amount * 100)%float));
                            ("currency", JStr "INR")]
  /\ payments (snd result)
     = (payments st ++ [mkPayment orderId user id None None amount "INR" "pending" None])%list
  /\ razorpay_orders (snd result)
     = (razorpay_orders st
        ++ [mkRazorpayOrder id (Math_round (amount * 100)%float) "INR" orderId])%list
  /\ orders (snd result) = orders st
  /\ order_items (snd result) = order_items st
  /\ product_variants (snd result) = product_variants st.
Proof.
  intros Hg Hw result. subst result.
  change (serve env oc (mkRequest "POST" (Some user) (CreateOrder orderId amount)) st)
    with (create_order env oc user orderId amount st).
  unfold create_order, write. rewrite Hg, Hw. simpl. repeat split; reflexivity.
Qed.

Lemma create_order_records_pending_payment_witness :
  let result := serve Scenario.env Scenario.ok
                  (mkRequest "POST" (Some "alice") (CreateOrder "order_A" 1.005))
                  Scenario.placed in
  fst result = respond 200 [("razorpay_order_id", JStr "rzp_1");
                            ("razorpay_key_id", JStr "rzp_test_key");
                            ("amount", JNum 100);
                            ("currency", JStr "INR")]
  /\ List.map (fun p => (payment_status p, payment_amount p))
              (payments (snd result)) = [("pending", 1.005%float)]
  /\ List.map rzp_amount (razorpay_orders (snd result)) = [100%float].
Proof.
  intros result.
  destruct (create_order_records_pending_payment Scenario.env Scenario.ok "alice"
              "order_A" 1.005 "rzp_1" Scenario.placed eq_refl eq_refl)
    as (Hr & Hp & Hz & _).
  subst result. rewrite Hr, Hp, Hz.
  assert (Math_round (1.005 * 100)%float = 100%float) as -> by (vm_compute; reflexivity).
  repeat split; reflexivity.
Defined.

(** X3: when the gateway accepts but the store refuses the Payment row,
    [create-order] answers 500 'Failed to store payment record'; the
    order created at the gateway stays there, and no Payment row refers
    to it. *)
Theorem create_order_insert_failure_orphans_gateway_order env oc user orderId amount id st :
  gateway oc = GatewayOk id ->
  payments_write_error oc = true ->
  let result := serve env oc (mkRequest "POST" (Some user) (CreateOrder orderId amount)) st in
  fst result = respond 500 [("error", JStr "Failed to store payment record")]
  /\ payments (snd result) = payments st
  /\ razorpay_orders (snd result)
     = (razorpay_orders st
        ++ [mkRazorpayOrder id (Math_round (amount * 100)%float) "INR" orderId])%list
  /\ orders (snd result) = orders st.
Proof.
  intros Hg Hw result. subst result.
  change (serve env oc (mkRequest "POST" (Some user) (CreateOrder orderId amount)) st)
    with (create_order env oc user orderId amount st).
  unfold create_order, write. rewrite Hg, Hw. simpl. repeat split; reflexivity.
Qed.

Lemma create_order_insert_failure_orphans_gateway_order_witness :
  let result := serve Scenario.env (mkOutcomes (GatewayOk "rzp_1") true false)
                  (mkRequest "POST" (Some "alice") (CreateOrder "order_A" 59.99))
                  Scenario.placed in
  status (fst result) = 500
  /\ payments (snd result) = []
  /\ List.map rzp_id (razorpay_orders (snd result)) = ["rzp_1"].
Proof.
  intros result.
  destruct (create_order_insert_failure_orphans_gateway_order Scenario.env
              (mkOutcomes (GatewayOk "rzp_1") true false) "alice" "order_A" 59.99
              "rzp_1" Scenario.placed eq_refl eq_refl)
    as (Hr & Hp & Hz & _).
  subst result. rewrite Hr, Hp, Hz. repeat split; reflexivity.
Defined.

(** ** What the edge function never does *)

Lemma map_update_eq_invariant {Row K : Type} (key : Row -> K) (col : Row -> string) v set rows :
  (forall r, key (set r) = key r) ->
  List.map key (update_eq col v set rows) = List.map key rows.
Proof.
  intros Hkey. unfold update_eq. rewrite List.map_map. apply List.map_ext.
  intros r. destruct (String.eqb (col r) v); [apply Hkey | reflexivity].
Qed.

Lemma serve_cases env oc req st :
  serve env oc req st = (mkResponse 200 None, st)
  \/ serve env oc req st = (unauthorized, st)
  \/ (exists message, serve env oc req st = (respond 500 [("error", JStr message)], st))
  \/ serve env oc req st = (respond 400 [("error", JStr "Invalid action")], st)
  \/ (exists user orderId amount,
        serve env oc req st = create_order env oc user orderId amount st)
  \/ (exists gid pid sig oid,
        serve env oc req st = verify_payment env oc gid pid sig oid st).
Proof.
  unfold serve. destruct (String.eqb (method req) "OPTIONS"); [left; reflexivity|].
  destruct (auth_user req) as [user|]; [|right; left; reflexivity].
  destruct (body req) as [orderId amount|gid pid sig oid|a|m].
  - do 4 right. left. exists user, orderId, amount. reflexivity.
  - do 5 right. exists gid, pid, sig, oid. reflexivity.
  - do 3 right. left. reflexivity.
  - do 2 right. left. exists m. reflexivity.
Qed.

(** X4: whatever the request, the edge function leaves the order items
    and the stock alone, creates, deletes or re-owns no order and changes
    no order's amounts, deletes no Payment row and changes no row's order,
    user, gateway order id, amount or currency, and adds at most one
    Payment row and at most one order at the gateway. *)
Theorem serve_keeps_what_is_stored env oc req st :
  let st' := snd (serve env oc req st) in
  order_items st' = order_items st
  /\ product_variants st' = product_variants st
  /\ List.map order_identity (orders st') = List.map order_identity (orders st)
  /\ (exists added, (List.length added <= 1)%nat
        /\ List.map payment_identity (payments st')
           = (List.map payment_identity (payments st) ++ added)%list)
  /\ (exists created, (List.length created <= 1)%nat
        /\ razorpay_orders st' = (razorpay_orders st ++ created)%list).
Proof.
  intros st'. subst st'.
  assert (forall s : State,
            s = st ->
            order_items s = order_items st
            /\ product_variants s = product_variants st
            /\ List.map order_identity (orders s) = List.map order_identity (orders st)
            /\ (exists added, (List.length added <= 1)%nat
                  /\ List.map payment_identity (payments s)
                     = (List.map payment_identity (payments st) ++ added)%list)
            /\ (exists created, (List.length created <= 1)%nat
                  /\ razorpay_orders s = (razorpay_orders st ++ created)%list)) as Hsame.
  { intros s ->. do 3 (split; [reflexivity|]). split.
    - exists []. split; [simpl; lia | rewrite List.app_nil_r; reflexivity].
    - exists []. split; [simpl; lia | rewrite List.app_nil_r; reflexivity]. }
  destruct (serve_cases env oc req st)
    as [E|[E|[[m E]|[E|[(user & orderId & amount & E)|(gid & pid & sig & oid & E)]]]]];
    rewrite E; try (apply Hsame; reflexivity).
  - unfold create_order, write.
    destruct (gateway oc) as [id|details|message]; try (apply Hsame; reflexivity).
    destruct (payments_write_error oc); cbn.
    + do 3 (split; [reflexivity|]). split.
      * exists []. split; [simpl; lia | rewrite List.app_nil_r; reflexivity].
      * eexists [_]. split; [simpl; lia | reflexivity].
    + do 3 (split; [reflexivity|]). split.
      * eexists [_]. split; [simpl; lia | rewrite List.map_app; reflexivity].
      * eexists [_]. split; [simpl; lia | reflexivity].
  - destruct (signature_mismatch env gid pid sig) eqn:Hm.
    + rewrite (verify_payment_mismatch _ _ _ _ _ _ _ Hm).
      cbn [snd set_payments order_items product_variants orders payments razorpay_orders].
      do 3 (split; [reflexivity|]). split.
      * exists []. split; [simpl; lia|]. rewrite List.app_nil_r.
        destruct (payments_write_error oc); [reflexivity|].
        apply map_update_eq_invariant. intros p. reflexivity.
      * exists []. split; [simpl; lia | rewrite List.app_nil_r; reflexivity].
    + rewrite (verify_payment_match _ _ _ _ _ _ _ Hm).
      cbn [snd set_payments set_orders order_items product_variants orders payments
           razorpay_orders].
      do 2 (split; [reflexivity|]). split; [|split].
      * destruct (orders_write_error oc); [reflexivity|].
        apply map_update_eq_invariant. intros o. reflexivity.
      * exists []. split; [simpl; lia|]. rewrite List.app_nil_r.
        destruct (payments_write_error oc); [reflexivity|].
        apply map_update_eq_invariant. intros p. reflexivity.
      * exists []. split; [simpl; lia | rewrite List.app_nil_r; reflexivity].
Qed.

Lemma signature_mismatch_false_iff env gid pid sig :
  signature_mismatch env gid pid sig = false <-> sig = expectedSignature env gid pid.
Proof.
  split; [|apply signature_mismatch_false].
  unfold signature_mismatch. intros H.
  destruct (String.eqb_spec (expectedSignature env gid pid) sig) as [E|E];
    [symmetry; exact E | discriminate].
Qed.

Lemma create_order_not_valid env oc user orderId amount st :
  valid (json (fst (create_order env oc user orderId amount st))) = false.
Proof.
  unfold create_order, write.
  destruct (gateway oc); try reflexivity.
  destruct (payments_write_error oc); reflexivity.
Qed.

(** X5: the answer of the edge function says [valid: true] exactly when
    the request is an authenticated [verify-payment] whose signature is
    the expected one; what the store did with the updates plays no part. *)
Theorem valid_answer_iff_signature_matches env oc req st :
  valid (json (fst (serve env oc req st))) = true <->
  method req <> "OPTIONS"
  /\ exists user gid pid sig oid,
       auth_user req = Some user
       /\ body req = VerifyPayment gid pid sig oid
       /\ sig = expectedSignature env gid pid.
Proof.
  unfold serve.
  destruct (String.eqb_spec (method req) "OPTIONS") as [Em|Em].
  { split; [discriminate | intros [H _]; contradiction]. }
  destruct (auth_user req) as [user|].
  2:{ split; [discriminate|]. intros (_ & u & g & p & s & o & H & _). discriminate. }
  destruct (body req) as [orderId amount|gid pid sig oid|a|m].
  - rewrite create_order_not_valid. split; [discriminate|].
    intros (_ & u & g & p & s & o & _ & H & _). discriminate.
  - destruct (signature_mismatch env gid pid sig) eqn:Hm.
    + rewrite (verify_payment_mismatch _ _ _ _ _ _ _ Hm). split; [discriminate|].
      intros (_ & u & g & p & s & o & _ & H & Hs). injection H as <- <- <- <-.
      apply signature_mismatch_false_iff in Hs. congruence.
    + rewrite (verify_payment_match _ _ _ _ _ _ _ Hm). split; [|reflexivity].
      intros _. split; [exact Em|]. exists user, gid, pid, sig, oid.
      repeat split. apply signature_mismatch_false_iff. exact Hm.
  - split; [discriminate|]. intros (_ & u & g & p & s & o & _ & H & _). discriminate.
  - split; [discriminate|]. intros (_ & u & g & p & s & o & _ & H & _). discriminate.
Qed.

(** ** The signed text *)

Lemma append_associative (s1 s2 s3 : string) :
  (s1 ++ s2) ++ s3 = s1 ++ (s2 ++ s3).
Proof.
  induction s1 as [|c s1 IH]; [reflexivity|].
  change (String c ((s1 ++ s2) ++ s3) = String c (s1 ++ (s2 ++ s3))).
  rewrite IH. reflexivity.
Qed.

(** X6: the signed text is [orderId + "|" + paymentId] with nothing that
    keeps the two apart, so a separator may move from one id to the other:
    the signature expected for the ids [a|b] and [c] is the one expected
    for [a] and [b|c], and a callback accepted for one pair is accepted
    for the other. *)
Theorem separator_moves_between_ids env a b c oc user oid st :
  expectedSignature env (a ++ "|" ++ b) c = expectedSignature env a (b ++ "|" ++ c)
  /\ fst (serve env oc
            (mkRequest "POST" (Some user)
               (VerifyPayment a (b ++ "|" ++ c)
                  (expectedSignature env (a ++ "|" ++ b) c) oid)) st)
     = verified.
Proof.
  assert (expectedSignature env (a ++ "|" ++ b) c
          = expectedSignature env a (b ++ "|" ++ c)) as E.
  { unfold expectedSignature. f_equal.
    rewrite append_associative. reflexivity. }
  split; [exact E|].
  rewrite serve_verify_payment, E.
  rewrite (verify_payment_match _ _ _ _ _ _ _ (signature_mismatch_false _ _ _ _ eq_refl)).
  reflexivity.
Qed.

(** ** Terminal payments *)

(** X9: [verify-payment] does not look at the status a Payment row has: a
    callback whose signature does not match marks [failed] also a row
    that was [completed], the store applying the write. *)
Theorem mismatch_fails_a_completed_payment env oc user gid pid sig oid st p :
  sig <> expectedSignature env gid pid ->
  payments_write_error oc = false ->
  In p (payments st) -> razorpay_order_id p = gid -> payment_status p = "completed" ->
  let st' := snd (serve env oc (mkRequest "POST" (Some user)
                                   (VerifyPayment gid pid sig oid)) st) in
  In (mark_failed p) (payments st')
  /\ payment_status (mark_failed p) = "failed"
  /\ (forall p', In p' (payments st') -> razorpay_order_id p' = gid ->
        payment_status p' <> "completed").
Proof.
  intros Hne Hw Hin Hgid _ st'. subst st'.
  rewrite serve_verify_payment,
    (verify_payment_mismatch _ _ _ _ _ _ _ (signature_mismatch_true _ _ _ _ Hne)), Hw.
  cbn [snd set_payments payments].
  split; [apply update_eq_hit; assumption|]. split; [reflexivity|].
  intros p' Hin' Hgid'.
  apply update_eq_selected in Hin' as [r0 [_ [_ ->]]]; [discriminate| |exact Hgid'].
  intros r. reflexivity.
Qed.

Lemma mismatch_fails_a_completed_payment_witness :
  let p := mkPayment "order_A" "alice" "rzp_1" (Some "pay_1")
             (Some (response_razorpay_signature Scenario.callback))
             59.99 "INR" "completed" None in
  let st := mkState [p] [] [] ∅ [] in
  let st' := snd (Scenario.verify Scenario.ok "mallory" Scenario.forged "order_A" st) in
  In (mark_failed p) (payments st').
Proof.
  intros p st st'.
  refine (proj1 (mismatch_fails_a_completed_payment Scenario.env Scenario.ok "mallory"
                   "rzp_1" "pay_1" (response_razorpay_signature Scenario.forged)
                   "order_A" st p _ eq_refl (or_introl eq_refl) eq_refl eq_refl)).
  vm_compute. discriminate.
Defined.

(** ** The shape of the expected signature *)

Lemma compress_length h block :
  List.length h = 8%nat -> List.length (WebCrypto.compress h block) = 8%nat.
Proof.
  intros Hh. unfold WebCrypto.compress.
  rewrite List.length_map, List.length_combine, Hh. reflexivity.
Qed.

Lemma blocks_length fuel : forall h bs,
  List.length h = 8%nat -> List.length (WebCrypto.blocks fuel h bs) = 8%nat.
Proof.
  induction fuel as [|fuel IH]; intros h bs Hh; simpl; [exact Hh|].
  destruct bs as [|b bs]; [exact Hh|].
  apply IH. apply compress_length. exact Hh.
Qed.

Lemma flat_map_length_const {A B : Type} (f : A -> list B) n l :
  (forall a, List.length (f a) = n) ->
  List.length (List.flat_map f l) = (n * List.length l)%nat.
Proof.
  intros Hf. induction l as [|a l IH]; simpl; [lia|].
  rewrite List.length_app, Hf, IH. lia.
Qed.

Lemma sha256_length msg : List.length (WebCrypto.sha256 msg) = 32%nat.
Proof.
  unfold WebCrypto.sha256.
  rewrite (flat_map_length_const _ 4%nat) by reflexivity.
  rewrite blocks_length; reflexivity.
Qed.

Lemma sha256_bytes msg : List.Forall (fun b => 0 <= b < 256) (WebCrypto.sha256 msg).
Proof.
  unfold WebCrypto.sha256. apply List.Forall_flat_map, List.Forall_forall.
  intros w _. unfold WebCrypto.bytes_of_word.
  repeat constructor; apply Z.mod_pos_bound; lia.
Qed.

Lemma hex_digit_is_lower_hex d :
  0 <= d < 16 -> is_lower_hex (ascii_of_N (Z.to_N (hex_digit d))) = true.
Proof.
  intros Hd.
  assert (d = 0 \/ d = 1 \/ d = 2 \/ d = 3 \/ d = 4 \/ d = 5 \/ d = 6 \/ d = 7
          \/ d = 8 \/ d = 9 \/ d = 10 \/ d = 11 \/ d = 12 \/ d = 13 \/ d = 14 \/ d = 15)
    as Hcases by lia.
  repeat (destruct Hcases as [->|Hcases]; [reflexivity|]). subst d. reflexivity.
Qed.

Lemma hexEncode_chars bs :
  List.Forall (fun b => 0 <= b < 256) bs ->
  List.Forall (fun c => is_lower_hex c = true)
    (list_ascii_of_string (decode (hexEncode bs))).
Proof.
  intros Hbs. unfold decode. rewrite list_ascii_of_string_of_list_ascii.
  apply List.Forall_map. unfold hexEncode. apply List.Forall_flat_map.
  eapply List.Forall_impl; [|exact Hbs]. intros b Hb. simpl in *.
  repeat constructor; apply hex_digit_is_lower_hex.
  - split; [apply Z.div_pos; lia | apply Z.div_lt_upper_bound; lia].
  - apply Z.mod_pos_bound. lia.
Qed.

Lemma length_string_of_list_ascii l :
  String.length (string_of_list_ascii l) = List.length l.
Proof. induction l as [|c l IH]; simpl; [reflexivity | rewrite IH; reflexivity]. Qed.

Lemma expectedSignature_length env gid pid :
  String.length (expectedSignature env gid pid) = 64%nat.
Proof.
  unfold expectedSignature, hmac_hex, decode.
  rewrite length_string_of_list_ascii, List.length_map. unfold hexEncode.
  rewrite (flat_map_length_const _ 2%nat) by reflexivity.
  unfold WebCrypto.hmac_sha256. rewrite sha256_length. reflexivity.
Qed.

Lemma expectedSignature_chars env gid pid :
  List.Forall (fun c => is_lower_hex c = true)
    (list_ascii_of_string (expectedSignature env gid pid)).
Proof.
  unfold expectedSignature, hmac_hex.
  apply hexEncode_chars. unfold WebCrypto.hmac_sha256. apply sha256_bytes.
Qed.

(** X7: whatever the secret and the two ids, the signature
    [createHmacSha256] computes for them has 64 characters, each one of
    [0-9a-f]. *)
Theorem expected_signature_is_64_lowercase_hex env gid pid :
  String.length (expectedSignature env gid pid) = 64%nat
  /\ List.Forall (fun c => is_lower_hex c = true)
       (list_ascii_of_string (expectedSignature env gid pid)).
Proof.
  split.
  - apply expectedSignature_length.
  - apply expectedSignature_chars.
Qed.

(** X8: a supplied signature that is not made of exactly 64 characters
    of [0-9a-f] is never accepted: the comparison is exact and
    case-sensitive, so the right digest written in upper case, or with a
    blank around it, is answered [valid: false]. *)
Theorem malformed_signature_is_rejected env oc user gid pid sig oid st :
  String.length sig <> 64%nat
  \/ List.Exists (fun c => is_lower_hex c = false) (list_ascii_of_string sig) ->
  signature_mismatch env gid pid sig = true
  /\ fst (serve env oc (mkRequest "POST" (Some user) (VerifyPayment gid pid sig oid)) st)
     = verification_failed.
Proof.
  intros Hbad.
  assert (sig <> expectedSignature env gid pid) as Hne.
  { intros ->. destruct Hbad as [Hlen|Hex].
    - apply Hlen. apply expectedSignature_length.
    - apply List.Exists_exists in Hex as [c [Hin Hc]].
      pose proof (expectedSignature_chars env gid pid) as Hall.
      rewrite List.Forall_forall in Hall. rewrite (Hall c Hin) in Hc. discriminate. }
  pose proof (signature_mismatch_true _ _ _ _ Hne) as Hm.
  split; [exact Hm|].
  rewrite serve_verify_payment, (verify_payment_mismatch _ _ _ _ _ _ _ Hm). reflexivity.
Qed.

Lemma malformed_signature_is_rejected_witness :
  fst (serve Scenario.env Scenario.ok
         (mkRequest "POST" (Some "alice")
            (VerifyPayment "rzp_1" "pay_1"
               "E53A0D6759FFE79748E84949615077862BB80DFFC748CC0A803C9CE091EAD722"
               "order_A")) Scenario.begun)
  = verification_failed.
Proof.
  refine (proj2 (malformed_signature_is_rejected Scenario.env Scenario.ok "alice"
                   "rzp_1" "pay_1" _ "order_A" Scenario.begun _)).
  right. apply List.Exists_cons_hd. reflexivity.
Defined.

(** ** The page's [handler], in full *)

Lemma verify_payment_variants env oc gid pid sig oid st :
  product_variants (snd (verify_payment env oc gid pid sig oid st)) = product_variants st
  /\ order_items (snd (verify_payment env oc gid pid sig oid st)) = order_items st.
Proof.
  destruct (signature_mismatch env gid pid sig) eqn:Hm.
  - rewrite (verify_payment_mismatch _ _ _ _ _ _ _ Hm). split; reflexivity.
  - rewrite (verify_payment_match _ _ _ _ _ _ _ Hm). split; reflexivity.
Qed.

(** X10: the page's [handler] reports success, empties the cart, goes to
    [/orders] and runs the inventory loop exactly when its session is
    authenticated and the signature is the expected one, whatever the
    store did with the two updates.  Without a session, or with another
    signature, it shows the error, keeps the cart and the location, and
    leaves orders, order items and stock as they were. *)
Theorem handler_outcome env oc session items oid response w :
  let expected := expectedSignature env (response_razorpay_order_id response)
                    (response_razorpay_payment_id response) in
  let w' := handler env oc session items oid response w in
  (session <> None -> response_razorpay_signature response = expected ->
     page w' = mkPage [] (toasts (page w)
                           ++ [ToastSuccess "Payment successful! Order confirmed."])%list
                 "/orders"
     /\ product_variants (store w')
        = update_inventory items (product_variants (store w)))
  /\ (session = None \/ response_razorpay_signature response <> expected ->
      page w' = mkPage (cart (page w))
                  (toasts (page w)
                   ++ [ToastError "Payment verification failed. Please contact support."])%list
                  (location (page w))
      /\ product_variants (store w') = product_variants (store w)
      /\ order_items (store w') = order_items (store w)
      /\ orders (store w') = orders (store w)).
Proof.
  intros expected w'. subst expected w'. split.
  - intros Hs Hsig. destruct session as [user|]; [|contradiction].
    pose proof (signature_mismatch_false _ _ _ _ Hsig) as Hm.
    rewrite (handler_verified _ _ _ _ _ _ _ Hm).
    cbn [page store set_product_variants product_variants].
    split; [reflexivity|].
    rewrite (proj1 (verify_payment_variants _ _ _ _ _ _ _)). reflexivity.
  - intros [->|Hne].
    + unfold handler, invoke.
      change (serve env oc (mkRequest "POST" None
                (VerifyPayment (response_razorpay_order_id response)
                   (response_razorpay_payment_id response)
                   (response_razorpay_signature response) oid)) (store w))
        with (unauthorized, store w).
      repeat split; reflexivity.
    + destruct session as [user|].
      * pose proof (signature_mismatch_true _ _ _ _ Hne) as Hm.
        rewrite (handler_rejected _ _ _ _ _ _ _ Hm).
        rewrite (verify_payment_mismatch _ _ _ _ _ _ _ Hm).
        repeat split; reflexivity.
      * unfold handler, invoke.
        change (serve env oc (mkRequest "POST" None
                  (VerifyPayment (response_razorpay_order_id response)
                     (response_razorpay_payment_id response)
                     (response_razorpay_signature response) oid)) (store w))
          with (unauthorized, store w).
        repeat split; reflexivity.
Qed.

Lemma handler_outcome_witness :
  let w := Scenario.checkout Scenario.begun in
  let w' := handler Scenario.env Scenario.ok None Scenario.items "order_A"
              Scenario.callback w in
  cart (page w') = Scenario.items
  /\ product_variants (store w') = product_variants (store w)
  /\ orders (store w') = orders (store w).
Proof.
  intros w w'.
  destruct (proj2 (handler_outcome Scenario.env Scenario.ok None Scenario.items "order_A"
                     Scenario.callback w) (or_introl eq_refl))
    as (Hp & Hv & _ & Ho).
  subst w'. rewrite Hp. repeat split; assumption.
Defined.

(** ** The inventory loop, in full *)

(** X11: after the inventory loop every variant row that existed holds its
    stock minus the quantities of all the cart lines that name it (none,
    one or several), and no variant row is created: a line whose variant
    is not in the table is skipped. *)
Theorem inventory_loop_takes_every_line items variants v :
  update_inventory items variants !! v
  = (fun stock_before => stock_before - ordered v items) <$> (variants !! v).
Proof.
  destruct (variants !! v) as [s|] eqn:Hs; simpl.
  - apply update_inventory_lookup. exact Hs.
  - apply update_inventory_absent. exact Hs.
Qed.

Lemma ordered_Permutation v items items' :
  Permutation items items' -> ordered v items = ordered v items'.
Proof.
  induction 1 as [|x l l' _ IH|x y l|l l' l'' _ IH1 _ IH2]; simpl.
  - reflexivity.
  - rewrite IH. reflexivity.
  - destruct (String.eqb (variantId x) v), (String.eqb (variantId y) v); lia.
  - congruence.
Qed.

(** X12: the order of the cart lines does not matter to the inventory
    loop: two carts with the same lines leave the same stock. *)
Theorem inventory_loop_ignores_line_order items items' variants :
  Permutation items items' ->
  update_inventory items variants = update_inventory items' variants.
Proof.
  intros Hperm. apply map_eq. intros v.
  destruct (variants !! v) as [s|] eqn:Hs.
  - rewrite !(update_inventory_lookup _ _ _ _ Hs).
    rewrite (ordered_Permutation v items items' Hperm). reflexivity.
  - rewrite !(update_inventory_absent _ _ _ Hs). reflexivity.
Qed.

Lemma inventory_loop_ignores_line_order_witness :
  update_inventory [Scenario.shirt; Scenario.coat] (<["v1" := 5]> (<["v2" := 4]> ∅))
  = update_inventory [Scenario.coat; Scenario.shirt] (<["v1" := 5]> (<["v2" := 4]> ∅)).
Proof.
  apply inventory_loop_ignores_line_order. apply perm_swap.
Defined.

(** ** The cart context, operation by operation *)

(** X13: a cart that has one line per variant keeps one line per variant
    under [addItem], [removeItem] and [updateQuantity]. *)
Theorem cart_keeps_one_line_per_variant current item v q :
  List.NoDup (List.map variantId current) ->
  List.NoDup (List.map variantId (addItem item current))
  /\ List.NoDup (List.map variantId (removeItem v current))
  /\ List.NoDup (List.map variantId (updateQuantity v q current)).
Proof.
  intros Hnd. split; [|split].
  - apply addItem_NoDup. exact Hnd.
  - apply removeItem_NoDup. exact Hnd.
  - apply updateQuantity_NoDup. exact Hnd.
Qed.

Lemma cart_keeps_one_line_per_variant_witness :
  List.NoDup (List.map variantId (addItem Scenario.shirt [Scenario.coat; Scenario.shirt])).
Proof.
  refine (proj1 (cart_keeps_one_line_per_variant [Scenario.coat; Scenario.shirt]
                   Scenario.shirt "v1" 0 _)).
  repeat constructor; simpl; intuition discriminate.
Defined.

Lemma fold_left_count items : forall n,
  List.fold_left (fun sum item => sum + quantity item) items n = n + itemCount items.
Proof.
  unfold itemCount. induction items as [|i items IH]; intros n; cbn [List.fold_left]; [lia|].
  rewrite (IH (n + quantity i)), (IH (0 + quantity i)). lia.
Qed.

Lemma itemCount_cons i items : itemCount (i :: items) = quantity i + itemCount items.
Proof. unfold itemCount at 1. simpl. apply fold_left_count. Qed.

(** X14: [addItem] raises [itemCount] by the quantity of the item, whether
    the item joins an existing line or becomes a new one. *)
Theorem addItem_adds_to_itemCount item current :
  itemCount (addItem item current) = itemCount current + quantity item.
Proof.
  induction current as [|i rest IH]; simpl.
  - rewrite itemCount_cons. unfold itemCount. simpl. lia.
  - destruct (String.eqb (variantId i) (variantId item)).
    + rewrite !itemCount_cons. simpl. lia.
    + rewrite !itemCount_cons, IH. lia.
Qed.

Lemma addItem_absent item current :
  (forall j, In j current -> variantId j <> variantId item) ->
  addItem item current = (current ++ [item])%list.
Proof.
  induction current as [|i rest IH]; intros Hno; simpl; [reflexivity|].
  destruct (String.eqb_spec (variantId i) (variantId item)) as [E|_].
  - exfalso. exact (Hno i (or_introl eq_refl) E).
  - rewrite IH; [reflexivity|]. intros j Hj. apply Hno. right. exact Hj.
Qed.

Lemma addItem_present item current :
  List.NoDup (List.map variantId current) ->
  (exists i, In i current /\ variantId i = variantId item) ->
  addItem item current
  = List.map (fun j => if String.eqb (variantId j) (variantId item)
                       then set_quantity (quantity j + quantity item) j else j)
             current.
Proof.
  induction current as [|a rest IH]; intros Hnd [i [Hin Hv]]; [contradiction|].
  simpl. apply List.NoDup_cons_iff in Hnd as [Hni Hnd].
  destruct (String.eqb_spec (variantId a) (variantId item)) as [E|E].
  - f_equal. symmetry. erewrite List.map_ext_in; [apply List.map_id|].
    intros j Hj. simpl.
    destruct (String.eqb_spec (variantId j) (variantId item)) as [Ej|_]; [|reflexivity].
    exfalso. apply Hni. rewrite E, <- Ej. apply List.in_map. exact Hj.
  - f_equal. apply IH; [exact Hnd|].
    destruct Hin as [->|Hin]; [contradiction|]. exists i. auto.
Qed.

(** X15: when the cart (one line per variant) already has a line for the
    variant, [addItem] changes that line's quantity and nothing else:
    product, name, size, color and price of the added item are dropped,
    the line keeps its own.  When it has none, the item is appended. *)
Theorem addItem_merges_into_the_existing_line item current :
  List.NoDup (List.map variantId current) ->
  (forall i, In i current -> variantId i = variantId item ->
     addItem item current
     = List.map (fun j => if String.eqb (variantId j) (variantId item)
                          then set_quantity (quantity j + quantity item) j else j)
                current
     /\ In (set_quantity (quantity i + quantity item) i) (addItem item current)
     /\ List.map price (addItem item current) = List.map price current
     /\ List.map name (addItem item current) = List.map name current)
  /\ ((forall j, In j current -> variantId j <> variantId item) ->
      addItem item current = (current ++ [item])%list).
Proof.
  intros Hnd. split; [|apply addItem_absent].
  intros i Hin Hv.
  assert (addItem item current
          = List.map (fun j => if String.eqb (variantId j) (variantId item)
                               then set_quantity (quantity j + quantity item) j else j)
                     current) as Hmap
    by (apply addItem_present; [exact Hnd | exists i; auto]).
  split; [exact Hmap|]. split; [|split].
  - rewrite Hmap. apply List.in_map_iff. exists i. split; [|exact Hin].
    rewrite Hv, String.eqb_refl. reflexivity.
  - rewrite Hmap, List.map_map. apply List.map_ext. intros j.
    destruct (String.eqb (variantId j) (variantId item)); reflexivity.
  - rewrite Hmap, List.map_map. apply List.map_ext. intros j.
    destruct (String.eqb (variantId j) (variantId item)); reflexivity.
Qed.

Lemma addItem_merges_into_the_existing_line_witness :
  let dear_shirt := mkCartItem "p1" "v1" "Renamed" "M" "blue" 999 3 in
  addItem dear_shirt [Scenario.shirt] = [set_quantity 5 Scenario.shirt].
Proof.
  intros dear_shirt.
  assert (List.NoDup (List.map variantId [Scenario.shirt])) as Hnd
    by (repeat constructor; simpl; tauto).
  destruct (proj1 (addItem_merges_into_the_existing_line dear_shirt [Scenario.shirt] Hnd)
              Scenario.shirt (or_introl eq_refl) eq_refl) as (Hmap & _).
  rewrite Hmap. reflexivity.
Defined.

(** X16: [updateQuantity] with a quantity of 0 or less removes the lines
    of the variant (the minus button on a line of quantity 1 deletes it);
    with a positive quantity it sets the quantity of exactly those lines
    and keeps every line in its place; it never adds a line, so for a
    variant that is not in the cart it changes nothing. *)
Theorem updateQuantity_sets_or_removes v q current :
  (q <= 0 ->
     updateQuantity v q current = removeItem v current
     /\ (forall j, In j (updateQuantity v q current) <-> In j current /\ variantId j <> v))
  /\ (0 < q ->
      List.map variantId (updateQuantity v q current) = List.map variantId current
      /\ (forall j, In j (updateQuantity v q current) -> variantId j = v -> quantity j = q)
      /\ (forall j, In j current -> variantId j <> v -> In j (updateQuantity v q current)))
  /\ ((forall j, In j current -> variantId j <> v) -> 0 < q ->
      updateQuantity v q current = current).
Proof.
  unfold updateQuantity. split; [|split].
  - intros Hq. destruct (Z.leb_spec q 0) as [_|Hgt]; [|lia].
    split; [reflexivity|]. intros j. unfold removeItem. rewrite List.filter_In.
    destruct (String.eqb_spec (variantId j) v); simpl; intuition congruence.
  - intros Hq. destruct (Z.leb_spec q 0) as [Hle|_]; [lia|]. split; [|split].
    + rewrite List.map_map. apply List.map_ext. intros j.
      destruct (String.eqb (variantId j) v); reflexivity.
    + intros j Hin Hv. apply List.in_map_iff in Hin as [j0 [<- _]].
      destruct (String.eqb_spec (variantId j0) v) as [E|E]; [reflexivity|].
      simpl in Hv. contradiction.
    + intros j Hin Hv. apply List.in_map_iff. exists j. split; [|exact Hin].
      destruct (String.eqb_spec (variantId j) v); [contradiction|reflexivity].
  - intros Hno Hq. destruct (Z.leb_spec q 0) as [Hle|_]; [lia|].
    erewrite List.map_ext_in; [apply List.map_id|].
    intros j Hj. simpl.
    destruct (String.eqb_spec (variantId j) v) as [E|_]; [|reflexivity].
    exfalso. exact (Hno j Hj E).
Qed.

Lemma updateQuantity_sets_or_removes_witness :
  updateQuantity "v1" (quantity (set_quantity 1 Scenario.shirt) - 1)
    [set_quantity 1 Scenario.shirt; Scenario.coat]
  = [Scenario.coat].
Proof.
  rewrite (proj1 (proj1 (updateQuantity_sets_or_removes "v1"
                           (quantity (set_quantity 1 Scenario.shirt) - 1)
                           [set_quantity 1 Scenario.shirt; Scenario.coat])
                    ltac:(simpl; lia))).
  reflexivity.
Defined.

(** X17: a cart whose quantities are all positive keeps them positive:
    under [addItem] of an item of positive quantity, under [removeItem],
    and under [updateQuantity] with any quantity. *)
Theorem cart_quantities_stay_positive current item v q :
  List.Forall (fun i => 0 < quantity i) current ->
  (0 < quantity item -> List.Forall (fun i => 0 < quantity i) (addItem item current))
  /\ List.Forall (fun i => 0 < quantity i) (removeItem v current)
  /\ List.Forall (fun i => 0 < quantity i) (updateQuantity v q current).
Proof.
  intros Hpos.
  assert (List.Forall (fun i => 0 < quantity i) (removeItem v current)) as Hrem.
  { unfold removeItem. rewrite List.Forall_forall in *. intros j Hj.
    apply List.filter_In in Hj as [Hj _]. apply Hpos. exact Hj. }
  split; [|split; [exact Hrem|]].
  - intros Hitem. induction current as [|i rest IH]; simpl.
    + constructor; [exact Hitem | constructor].
    + apply List.Forall_cons_iff in Hpos as [Hi Hrest].
      destruct (String.eqb (variantId i) (variantId item)).
      * constructor; [simpl; lia | exact Hrest].
      * constructor; [exact Hi|]. apply IH; [exact Hrest|].
        unfold removeItem. rewrite List.Forall_forall in *. intros j Hj.
        apply List.filter_In in Hj as [Hj _]. apply Hrest. exact Hj.
  - unfold updateQuantity. destruct (Z.leb_spec q 0) as [_|Hq]; [exact Hrem|].
    rewrite List.Forall_forall in *. intros j Hj.
    apply List.in_map_iff in Hj as [j0 [<- Hj0]].
    destruct (String.eqb (variantId j0) v); [simpl; lia | apply Hpos; exact Hj0].
Qed.

Lemma cart_quantities_stay_positive_witness :
  List.Forall (fun i => 0 < quantity i) (updateQuantity "v1" 7 [Scenario.shirt]).
Proof.
  refine (proj2 (proj2 (cart_quantities_stay_positive [Scenario.shirt] Scenario.coat
                          "v1" 7 _))).
  repeat constructor.
Defined.

(** ** The product page's add-to-cart *)

(** X18: [handleAddToCart], case by case.  For a signed-in user who has
    chosen a size and a color for which there is a variant whose stock is
    at least the chosen quantity, the cart becomes [addItem] of the first
    such variant, at the product's base price plus the variant's
    adjustment and with the chosen quantity, and 'Added to cart!' is
    shown.  In every other case the cart is left as it was and an error
    is shown: without a user 'Please sign in to add items to cart', and
    the page goes to /auth; without a size or a color 'Please select size
    and color'; without such a variant, or with less stock than the
    chosen quantity, 'Not enough stock available'. *)
Theorem handleAddToCart_guard user product variants selectedSize selectedColor q p :
  let p' := handleAddToCart user product variants selectedSize selectedColor q p in
  (forall v,
      user <> None -> selectedSize <> "" -> selectedColor <> "" ->
      selectedVariant variants selectedSize selectedColor = Some v ->
      q <= variant_stock_quantity v ->
      cart p'
      = addItem (mkCartItem (product_id product) (variant_id v) (product_name product)
                   selectedSize selectedColor
                   (or_zero (base_price product) + or_zero (price_adjustment v))%float q)
          (cart p)
      /\ toasts p' = (toasts p ++ [ToastSuccess "Added to cart!"])%list
      /\ location p' = location p)
  /\ (user = None ->
      cart p' = cart p
      /\ toasts p' = (toasts p ++ [ToastError "Please sign in to add items to cart"])%list
      /\ location p' = "/auth")
  /\ (user <> None -> selectedSize = "" \/ selectedColor = "" ->
      cart p' = cart p
      /\ toasts p' = (toasts p ++ [ToastError "Please select size and color"])%list
      /\ location p' = location p)
  /\ (user <> None -> selectedSize <> "" -> selectedColor <> "" ->
      (forall v, selectedVariant variants selectedSize selectedColor = Some v ->
                 variant_stock_quantity v < q) ->
      cart p' = cart p
      /\ toasts p' = (toasts p ++ [ToastError "Not enough stock available"])%list
      /\ location p' = location p)
  /\ (forall v, selectedVariant variants selectedSize selectedColor = Some v ->
        In v variants /\ variant_size v = selectedSize /\ variant_color v = selectedColor).
Proof.
  intros p'. subst p'. unfold handleAddToCart.
  split; [|split; [|split; [|split]]].
  - intros v Hu Hs Hc Hv Hq.
    destruct user as [u|]; [|contradiction].
    destruct (String.eqb_spec selectedSize "") as [Es|_]; [contradiction|].
    destruct (String.eqb_spec selectedColor "") as [Ec|_]; [contradiction|].
    cbn [orb]. rewrite Hv.
    destruct (Z.ltb_spec (variant_stock_quantity v) q) as [Hlt|_]; [lia|].
    repeat split; reflexivity.
  - intros ->. repeat split; reflexivity.
  - intros Hu Hsel. destruct user as [u|]; [|contradiction].
    destruct Hsel as [-> | ->].
    + repeat split; reflexivity.
    + rewrite orb_true_r. repeat split; reflexivity.
  - intros Hu Hs Hc Hlow. destruct user as [u|]; [|contradiction].
    destruct (String.eqb_spec selectedSize "") as [Es|_]; [contradiction|].
    destruct (String.eqb_spec selectedColor "") as [Ec|_]; [contradiction|].
    cbn [orb].
    destruct (selectedVariant variants selectedSize selectedColor) as [v|];
      [|repeat split; reflexivity].
    destruct (Z.ltb_spec (variant_stock_quantity v) q) as [_|Hge];
      [repeat split; reflexivity|].
    specialize (Hlow v eq_refl). lia.
  - intros v Hv. unfold selectedVariant in Hv.
    pose proof (List.find_some _ _ Hv) as [Hin Hmatch].
    apply andb_true_iff in Hmatch as [Hsz Hcl].
    apply String.eqb_eq in Hsz, Hcl. auto.
Qed.

Lemma handleAddToCart_guard_witness :
  let added := handleAddToCart (Some "alice") Shop.shirt_product Shop.shirt_variants
                 "M" "blue" 2 Shop.browsing in
  let sold_out := handleAddToCart (Some "alice") Shop.shirt_product Shop.shirt_variants
                    "S" "blue" 1 Shop.browsing in
  cart added = [mkCartItem "p1" "v1" "Linen Shirt" "M" "blue" 24.995 2]
  /\ toasts added = [ToastSuccess "Added to cart!"]
  /\ cart sold_out = []
  /\ toasts sold_out = [ToastError "Not enough stock available"].
Proof.
  intros added sold_out.
  destruct (handleAddToCart_guard (Some "alice") Shop.shirt_product Shop.shirt_variants
              "M" "blue" 2 Shop.browsing) as (Hadd & _).
  destruct (Hadd (mkVariantRow "v1" "M" "blue" 5 4.995)) as (Hc & Ht & _);
    [discriminate | discriminate | discriminate | reflexivity | simpl; lia |].
  destruct (handleAddToCart_guard (Some "alice") Shop.shirt_product Shop.shirt_variants
              "S" "blue" 1 Shop.browsing) as (_ & _ & _ & Hlow & _).
  destruct Hlow as (Hc' & Ht' & _);
    [discriminate | discriminate | discriminate | |].
  - intros v Hv. injection Hv as <-. simpl. lia.
  - subst added sold_out. rewrite Hc, Ht, Hc', Ht'. repeat split; reflexivity.
Defined.

(** X19: the stock check of [handleAddToCart] looks at the quantity chosen
    on the page only, not at what the cart already holds: for a variant
    already in the cart (one line per variant) with quantity [c], adding
    [q] with [q <= stock] gives a line of quantity [c + q], whether or not
    [c + q] exceeds the stock. *)
Theorem handleAddToCart_ignores_the_cart_quantity
    user product variants selectedSize selectedColor q p v line :
  selectedSize <> "" -> selectedColor <> "" ->
  selectedVariant variants selectedSize selectedColor = Some v ->
  q <= variant_stock_quantity v ->
  List.NoDup (List.map variantId (cart p)) ->
  In line (cart p) -> variantId line = variant_id v ->
  let p' := handleAddToCart (Some user) product variants selectedSize selectedColor q p in
  In (set_quantity (quantity line + q) line) (cart p')
  /\ toasts p' = (toasts p ++ [ToastSuccess "Added to cart!"])%list.
Proof.
  intros Hs Hc Hv Hq Hnd Hin Hline p'. subst p'. unfold handleAddToCart.
  destruct (String.eqb_spec selectedSize "") as [Es|_]; [contradiction|].
  destruct (String.eqb_spec selectedColor "") as [Ec|_]; [contradiction|].
  simpl. rewrite Hv.
  destruct (Z.ltb_spec (variant_stock_quantity v) q) as [Hlt|_]; [lia|].
  simpl. split; [|reflexivity].
  rewrite addItem_present; [|exact Hnd | exists line; auto].
  apply List.in_map_iff. exists line. split; [|exact Hin].
  simpl. rewrite Hline, String.eqb_refl. reflexivity.
Qed.

Lemma handleAddToCart_ignores_the_cart_quantity_witness :
  let p := handleAddToCart (Some "alice") Shop.shirt_product Shop.shirt_variants
             "M" "blue" 5 Shop.browsing in
  let p' := handleAddToCart (Some "alice") Shop.shirt_product Shop.shirt_variants
              "M" "blue" 5 p in
  List.map variant_stock_quantity Shop.shirt_variants = [0; 5]
  /\ List.map quantity (cart p) = [5]
  /\ In (set_quantity (5 + 5) (mkCartItem "p1" "v1" "Linen Shirt" "M" "blue"
                                 (20 + 4.995)%float 5)) (cart p').
Proof.
  intros p p'. split; [reflexivity|]. split; [reflexivity|].
  refine (proj1 (handleAddToCart_ignores_the_cart_quantity "alice" Shop.shirt_product
                   Shop.shirt_variants "M" "blue" 5 p
                   (mkVariantRow "v1" "M" "blue" 5 4.995)
                   (mkCartItem "p1" "v1" "Linen Shirt" "M" "blue"
                      (20 + 4.995)%float 5)
                   _ _ eq_refl _ _ (or_introl eq_refl) eq_refl)).
  - discriminate.
  - discriminate.
  - simpl. lia.
  - repeat constructor. simpl. tauto.
Defined.

(** ** The checkout form *)

Lemma string_issues_nil min message max max_text value :
  string_issues min message max max_text value = []
  <-> (min <= js_length value <= max)%nat.
Proof.
  unfold string_issues.
  destruct (Nat.ltb_spec (js_length value) min) as [Hlo|Hlo],
           (Nat.ltb_spec max (js_length value)) as [Hhi|Hhi];
    simpl; split; intros Hnil; try discriminate; try lia; reflexivity.
Qed.

(** X20: [addressSchema] accepts a form, handing it on unchanged, exactly
    when every field is within its bounds, counted in UTF-16 code units:
    name 1 to 100, address 1 to 200, city 1 to 100, state 1 to 50, ZIP
    code 5 to 10, phone 10 to 15. *)
Theorem addressSchema_accepts_within_bounds d :
  addressSchema_parse d = inl d
  <-> ((1 <= js_length (fullName d) <= 100)%nat
       /\ (1 <= js_length (address d) <= 200)%nat
       /\ (1 <= js_length (city d) <= 100)%nat
       /\ (1 <= js_length (state d) <= 50)%nat
       /\ (5 <= js_length (zipCode d) <= 10)%nat
       /\ (10 <= js_length (phone d) <= 15)%nat).
Proof.
  unfold addressSchema_parse, addressSchema_issues.
  split.
  - intros Hparse.
    destruct (_ ++ _)%list eqn:E in Hparse; [|discriminate].
    apply List.app_eq_nil in E as [E1 E]. apply List.app_eq_nil in E as [E2 E].
    apply List.app_eq_nil in E as [E3 E]. apply List.app_eq_nil in E as [E4 E].
    apply List.app_eq_nil in E as [E5 E6].
    apply string_issues_nil in E1, E2, E3, E4, E5, E6.
    repeat split; lia.
  - intros (H1 & H2 & H3 & H4 & H5 & H6).
    rewrite (proj2 (string_issues_nil 1 "Full name is required" 100 "100" _) H1),
      (proj2 (string_issues_nil 1 "Address is required" 200 "200" _) H2),
      (proj2 (string_issues_nil 1 "City is required" 100 "100" _) H3),
      (proj2 (string_issues_nil 1 "State is required" 50 "50" _) H4),
      (proj2 (string_issues_nil 5 "ZIP code must be at least 5 characters" 10 "10" _) H5),
      (proj2 (string_issues_nil 10 "Phone number must be at least 10 digits" 15 "15" _) H6).
    reflexivity.
Qed.

Lemma addressSchema_parse_inr d issues :
  addressSchema_parse d = inr issues -> issues = addressSchema_issues d /\ issues <> [].
Proof.
  unfold addressSchema_parse. destruct (addressSchema_issues d) as [|i rest];
    intros H; inversion H. split; [reflexivity | discriminate].
Qed.

(** X21: a form that [addressSchema] does not accept is not submitted:
    nothing is written to the store, the gateway is not asked, the widget
    is not opened, the cart stays, and the toast shows the message of the
    first issue, the first failing field in the order name, address,
    city, state, ZIP code, phone. *)
Theorem invalid_form_writes_nothing env so user session d items w :
  addressSchema_issues d <> [] ->
  let s := handleSubmit env so user session d items w in
  store (submitted_world s) = store w
  /\ widget s = None
  /\ loading s = false
  /\ cart (page (submitted_world s)) = cart (page w)
  /\ toasts (page (submitted_world s))
     = (toasts (page w) ++ [ToastError (List.hd "" (addressSchema_issues d))])%list.
Proof.
  intros Hbad s. subst s. unfold handleSubmit.
  destruct (addressSchema_parse d) as [v|issues] eqn:Hp.
  - unfold addressSchema_parse in Hp.
    destruct (addressSchema_issues d); [contradiction | discriminate].
  - apply addressSchema_parse_inr in Hp as [-> _].
    repeat split; reflexivity.
Qed.

Lemma invalid_form_writes_nothing_witness :
  let s := handleSubmit Scenario.env Shop.smooth "alice" (Some "alice") Shop.short_zip
             Scenario.items Shop.start in
  store (submitted_world s) = Scenario.empty
  /\ toasts (page (submitted_world s))
     = [ToastError "ZIP code must be at least 5 characters"].
Proof.
  intros s.
  destruct (invalid_form_writes_nothing Scenario.env Shop.smooth "alice" (Some "alice")
              Shop.short_zip Scenario.items Shop.start)
    as (Hst & _ & _ & _ & Ht).
  - vm_compute. discriminate.
  - split; [exact Hst | exact Ht].
Defined.

Lemma insert_order_items_all fails id items : forall k rows,
  (forall j, fails j = false) ->
  insert_order_items fails k id items rows
  = (false, (rows ++ List.map (order_item_row id) items)%list).
Proof.
  induction items as [|item rest IH]; intros k rows Hok; simpl.
  - rewrite List.app_nil_r. reflexivity.
  - rewrite Hok, IH by exact Hok. rewrite <- List.app_assoc. reflexivity.
Qed.

Lemma insert_order_items_stops fails id items : forall k n rows,
  (forall j, (k <= j < k + n)%nat -> fails j = false) ->
  fails (k + n)%nat = true ->
  (n < List.length items)%nat ->
  insert_order_items fails k id items rows
  = (true, (rows ++ List.map (order_item_row id) (List.firstn n items))%list).
Proof.
  induction items as [|item rest IH]; intros k n rows Hok Hfail Hlen; simpl in *; [lia|].
  destruct n as [|n].
  - rewrite Nat.add_0_r in Hfail. rewrite Hfail. simpl.
    rewrite List.app_nil_r. reflexivity.
  - rewrite (Hok k) by lia.
    rewrite (IH (S k) n).
    + simpl. rewrite <- List.app_assoc. reflexivity.
    + intros j Hj. apply Hok. lia.
    + replace (S k + n)%nat with (k + S n)%nat by lia. exact Hfail.
    + lia.
Qed.

(** X22: the store refusing the insert of the item of index [n] stops
    [handleSubmit] there without undoing anything: the order and the [n]
    items before it stay in the store, no Payment row is written, the
    gateway is not asked, the widget is not opened, and the toast is
    'Failed to process checkout. Please try again.'. *)
Theorem refused_item_leaves_a_partial_order env so user session d items w n :
  addressSchema_issues d = [] ->
  order_insert_error so = false ->
  (forall j, (j < n)%nat -> item_insert_error so j = false) ->
  item_insert_error so n = true ->
  (n < List.length items)%nat ->
  let s := handleSubmit env so user session d items w in
  let st' := store (submitted_world s) in
  orders st'
  = (orders (store w)
     ++ [mkOrder (new_order_id so) user (total items) SHIPPING_COST
           (total items + SHIPPING_COST)%float "pending" "razorpay"])%list
  /\ order_items st'
     = (order_items (store w)
        ++ List.map (order_item_row (new_order_id so)) (List.firstn n items))%list
  /\ payments st' = payments (store w)
  /\ razorpay_orders st' = razorpay_orders (store w)
  /\ product_variants st' = product_variants (store w)
  /\ widget s = None
  /\ toasts (page (submitted_world s))
     = (toasts (page w)
        ++ [ToastError "Failed to process checkout. Please try again."])%list.
Proof.
  intros Hvalid Ho Hbefore Hn Hlen s st'. subst st' s. unfold handleSubmit.
  unfold addressSchema_parse. rewrite Hvalid, Ho.
  cbn [order_id set_orders order_items].
  rewrite (insert_order_items_stops _ _ _ 0 n); [|intros j Hj; apply Hbefore; lia
                                                  |exact Hn|exact Hlen].
  repeat split; reflexivity.
Qed.

Lemma refused_item_leaves_a_partial_order_witness :
  let s := handleSubmit Scenario.env Shop.second_item_refused "alice" (Some "alice")
             Shop.home Shop.two_lines Shop.start in
  List.map order_status (orders (store (submitted_world s))) = ["pending"]
  /\ List.map item_variant_id (order_items (store (submitted_world s))) = ["v1"]
  /\ payments (store (submitted_world s)) = [].
Proof.
  intros s.
  destruct (refused_item_leaves_a_partial_order Scenario.env Shop.second_item_refused
              "alice" (Some "alice") Shop.home Shop.two_lines Shop.start 1)
    as (Ho & Hi & Hp & _).
  - vm_compute. reflexivity.
  - reflexivity.
  - intros j Hj. destruct j; [reflexivity | lia].
  - reflexivity.
  - simpl. lia.
  - subst s. rewrite Ho, Hi, Hp. repeat split; reflexivity.
Defined.

Lemma handleSubmit_inserted env so user session d items w :
  addressSchema_issues d = [] ->
  order_insert_error so = false ->
  (forall j, item_insert_error so j = false) ->
  handleSubmit env so user session d items w
  = let orderTotal := (total items + SHIPPING_COST)%float in
    let st2 := insert_order (new_order_id so) user items (store w) in
    let '((razorpayData, razorpayError), st3) :=
      invoke env (edge so) session (CreateOrder (new_order_id so) orderTotal) st2 in
    if razorpayError || has_error razorpayData
    then checkout_failed w st3 "Failed to initialize payment. Please try again."
    else
      let fields := match razorpayData with Some fs => fs | None => [] end in
      mkSubmitted (mkWorld st3 (page w)) true
        (Some (mkRazorpayOptions (field "razorpay_key_id" fields)
                 (field "amount" fields) (field "currency" fields)
                 (field "razorpay_order_id" fields))).
Proof.
  intros Hvalid Ho Hitems. unfold handleSubmit, addressSchema_parse.
  rewrite Hvalid, Ho. cbn [order_id set_orders order_items].
  rewrite (insert_order_items_all _ _ _ _ _ Hitems). reflexivity.
Qed.

Lemma invoke_create_order env oc user orderId amount st :
  invoke env oc (Some user) (CreateOrder orderId amount) st
  = let r := create_order env oc user orderId amount st in
    if (200 <=? status (fst r)) && (status (fst r) <? 300)
    then ((json (fst r), false), snd r) else ((None, true), snd r).
Proof.
  unfold invoke.
  change (serve env oc (mkRequest "POST" (Some user) (CreateOrder orderId amount)) st)
    with (create_order env oc user orderId amount st).
  destruct (create_order env oc user orderId amount st) as [resp st']. reflexivity.
Qed.

(** X23: a valid form, a store that takes the order, its items and the
    Payment row, and a gateway that accepts: [handleSubmit] leaves one new
    [pending] order of the user, one order item per cart line, and one
    [pending] Payment row that refers to that order, carries the id of
    the session's user and the gateway's order id, and whose amount is
    the order's total.  The widget is opened for the gateway's order id;
    the cart and the stock are not touched. *)
Theorem submitted_order_has_its_pending_payment env so user caller d items w id :
  addressSchema_issues d = [] ->
  order_insert_error so = false ->
  (forall j, item_insert_error so j = false) ->
  gateway (edge so) = GatewayOk id ->
  payments_write_error (edge so) = false ->
  let s := handleSubmit env so user (Some caller) d items w in
  let st' := store (submitted_world s) in
  let order := mkOrder (new_order_id so) user (total items) SHIPPING_COST
                 (total items + SHIPPING_COST)%float "pending" "razorpay" in
  orders st' = (orders (store w) ++ [order])%list
  /\ order_items st'
     = (order_items (store w) ++ List.map (order_item_row (new_order_id so)) items)%list
  /\ payments st'
     = (payments (store w)
        ++ [mkPayment (order_id order) caller id None None (order_total order) "INR"
              "pending" None])%list
  /\ product_variants st' = product_variants (store w)
  /\ page (submitted_world s) = page w
  /\ loading s = true
  /\ (exists options, widget s = Some options
        /\ options_order_id options = Some (JStr id)
        /\ options_key options = Some (JStr (RAZORPAY_KEY_ID env))).
Proof.
  intros Hvalid Ho Hitems Hg Hp s st' order. subst st' s order.
  rewrite (handleSubmit_inserted _ _ _ _ _ _ _ Hvalid Ho Hitems).
  cbn zeta. rewrite invoke_create_order.
  unfold create_order, write. rewrite Hg, Hp.
  cbn. repeat split. eexists. repeat split.
Qed.

Lemma submitted_order_has_its_pending_payment_witness :
  let s := handleSubmit Scenario.env Shop.smooth "alice" (Some "alice") Shop.home
             Scenario.items Shop.start in
  List.map (fun p => (payment_order_id p, razorpay_order_id p, payment_status p,
                      payment_amount p))
           (payments (store (submitted_world s)))
  = [("order_A", "rzp_1", "pending", 59.99%float)]
  /\ orders (store (submitted_world s)) = orders Scenario.begun
  /\ order_items (store (submitted_world s)) = order_items Scenario.begun.
Proof.
  intros s.
  destruct (submitted_order_has_its_pending_payment Scenario.env Shop.smooth "alice"
              "alice" Shop.home Scenario.items Shop.start "rzp_1")
    as (Ho & Hi & Hp & Hv & _).
  - vm_compute. reflexivity.
  - reflexivity.
  - intros j. reflexivity.
  - reflexivity.
  - reflexivity.
  - subst s. rewrite Hp, Ho, Hi. repeat split; reflexivity.
Defined.

Lemma fold_left_line_totals id items : forall q,
  List.fold_left (fun sum oi => (sum + item_total_price oi)%float)
    (List.map (order_item_row id) items) q
  = List.fold_left
      (fun sum item => (sum + price item * float_of_Z (quantity item))%float) items q.
Proof.
  induction items as [|item rest IH]; intros q; [reflexivity|].
  cbn [List.map List.fold_left]. rewrite IH. reflexivity.
Qed.

Example amounts_are_doubles :
  total [mkCartItem "p1" "v1" "Pin" "M" "blue" 0.1 3] = 0.30000000000000004%float
  /\ (0.30000000000000004 =? 0.3)%float = false
  /\ List.map item_total_price
       (List.map (order_item_row "order_A") [mkCartItem "p1" "v1" "Pin" "M" "blue" 0.1 3])
     = [0.30000000000000004%float]
  /\ total Scenario.items = 49.99%float.
Proof. vm_compute. repeat split; reflexivity. Qed.

(** X24: the amounts [handleSubmit] writes agree with each other as
    doubles: every order item's total is the double product of its unit
    price and its quantity, the order's subtotal is the double sum of
    these line totals taken in cart order from 0, the shipping cost is
    [SHIPPING_COST], and the order's total, which is also the amount
    [handleSubmit] sends to [create-order], is the double sum of subtotal
    and shipping.  The amounts are those of double arithmetic, not of
    decimal arithmetic: three units at 0.1 are stored as
    0.30000000000000004. *)
Theorem submitted_amounts_agree env so user caller d items w id :
  addressSchema_issues d = [] ->
  order_insert_error so = false ->
  (forall j, item_insert_error so j = false) ->
  gateway (edge so) = GatewayOk id ->
  payments_write_error (edge so) = false ->
  let st' := store (submitted_world (handleSubmit env so user (Some caller) d items w)) in
  let rows := List.map (order_item_row (new_order_id so)) items in
  List.Forall (fun oi => item_total_price oi
                         = (item_unit_price oi * float_of_Z (item_quantity oi))%float) rows
  /\ order_items st' = (order_items (store w) ++ rows)%list
  /\ (exists o p, orders st' = (orders (store w) ++ [o])%list
        /\ payments st' = (payments (store w) ++ [p])%list
        /\ order_subtotal o = line_totals rows
        /\ order_shipping_cost o = SHIPPING_COST
        /\ order_total o = (order_subtotal o + order_shipping_cost o)%float
        /\ payment_amount p = order_total o
        /\ List.map rzp_amount (razorpay_orders st')
           = (List.map rzp_amount (razorpay_orders (store w))
              ++ [Math_round (order_total o * 100)%float])%list).
Proof.
  intros Hvalid Ho Hitems Hg Hp st' rows. subst st' rows. split; [|split].
  - apply List.Forall_map, List.Forall_forall. intros item _. reflexivity.
  - rewrite (handleSubmit_inserted _ _ _ _ _ _ _ Hvalid Ho Hitems).
    cbn zeta. rewrite invoke_create_order.
    unfold create_order, write. rewrite Hg, Hp. reflexivity.
  - rewrite (handleSubmit_inserted _ _ _ _ _ _ _ Hvalid Ho Hitems).
    cbn zeta. rewrite invoke_create_order.
    unfold create_order, write. rewrite Hg, Hp. cbn.
    eexists. eexists. split; [reflexivity|]. split; [reflexivity|]. cbn.
    split; [|repeat split; try reflexivity].
    + unfold line_totals, total. symmetry. apply fold_left_line_totals.
    + rewrite List.map_app. reflexivity.
Qed.

Lemma submitted_amounts_agree_witness :
  let cart := [mkCartItem "p1" "v1" "Pin" "M" "blue" 0.1 3] in
  let st' := store (submitted_world
                      (handleSubmit Scenario.env Shop.smooth "alice" (Some "alice")
                         Shop.home cart Shop.start)) in
  List.map (fun o => (order_subtotal o, order_total o)) (orders st')
  = [(0.30000000000000004%float, 10.300000000000001%float)]
  /\ List.map item_total_price (order_items st') = [0.30000000000000004%float]
  /\ List.map payment_amount (payments st') = [10.300000000000001%float]
  /\ List.map rzp_amount (razorpay_orders st') = [1030%float].
Proof.
  intros cart st'.
  destruct (submitted_amounts_agree Scenario.env Shop.smooth "alice" "alice" Shop.home
              cart Shop.start "rzp_1")
    as (_ & Hi & o & p & Ho & Hp & Hsub & Hship & Htot & Hamt & Hz).
  - vm_compute. reflexivity.
  - reflexivity.
  - intros j. reflexivity.
  - reflexivity.
  - reflexivity.
  - subst st'. rewrite Hi, Ho, Hp, Hz. rewrite !List.map_app. cbn [List.map].
    rewrite Hamt, Htot, Hship, Hsub. subst cart.
    vm_compute. repeat split; reflexivity.
Defined.

(** X25: when the order and its items are stored but the payment cannot
    be begun, because the session is not authenticated or the gateway
    rejects or cannot be reached, [handleSubmit] keeps the [pending] order
    and its items, writes no Payment row, does not open the widget and
    shows 'Failed to initialize payment. Please try again.'. *)
Theorem failed_begin_leaves_the_pending_order env so user session d items w :
  addressSchema_issues d = [] ->
  order_insert_error so = false ->
  (forall j, item_insert_error so j = false) ->
  session = None \/ (forall id, gateway (edge so) <> GatewayOk id) ->
  let s := handleSubmit env so user session d items w in
  store (submitted_world s) = insert_order (new_order_id so) user items (store w)
  /\ payments (store (submitted_world s)) = payments (store w)
  /\ widget s = None
  /\ loading s = false
  /\ cart (page (submitted_world s)) = cart (page w)
  /\ toasts (page (submitted_world s))
     = (toasts (page w)
        ++ [ToastError "Failed to initialize payment. Please try again."])%list.
Proof.
  intros Hvalid Ho Hitems Hfail s. subst s.
  rewrite (handleSubmit_inserted _ _ _ _ _ _ _ Hvalid Ho Hitems). cbn zeta.
  destruct session as [caller|].
  - destruct Hfail as [Hnone|Hgw]; [discriminate|].
    rewrite invoke_create_order. unfold create_order.
    destruct (gateway (edge so)) as [id|details|message].
    + exfalso. exact (Hgw id eq_refl).
    + repeat split; reflexivity.
    + repeat split; reflexivity.
  - repeat split; reflexivity.
Qed.

Lemma failed_begin_leaves_the_pending_order_witness :
  let s := handleSubmit Scenario.env Shop.gateway_down "alice" (Some "alice") Shop.home
             Scenario.items Shop.start in
  store (submitted_world s) = Scenario.placed /\ widget s = None.
Proof.
  intros s.
  destruct (failed_begin_leaves_the_pending_order Scenario.env Shop.gateway_down "alice"
              (Some "alice") Shop.home Scenario.items Shop.start)
    as (Hst & _ & Hw & _).
  - vm_compute. reflexivity.
  - reflexivity.
  - intros j. reflexivity.
  - right. intros id. simpl. discriminate.
  - split; [exact Hst | exact Hw].
Defined.

(** ** The orders page *)

Lemma cancelOrder_orders user orderId st :
  orders (snd (cancelOrder false user orderId st))
  = List.map (fun o => if String.eqb (order_id o) orderId
                          && String.eqb (order_user_id o) user
                       then mark_cancelled o else o) (orders st).
Proof. reflexivity. Qed.

(** X26: the cancellation of the orders page, the store applying it, sets
    [cancelled] exactly the rows that have the given id and belong to the
    caller, whatever status they had; every other order, also one with
    that id of another user, and all payments, order items and stock are
    left as they were.  A refused update changes nothing and is reported
    as an error. *)
Theorem cancelOrder_touches_only_the_callers_order user orderId st :
  let st' := snd (cancelOrder false user orderId st) in
  (forall o, In o (orders st) -> order_id o = orderId -> order_user_id o = user ->
     In (mark_cancelled o) (orders st'))
  /\ (forall o, In o (orders st) -> order_id o <> orderId \/ order_user_id o <> user ->
        In o (orders st'))
  /\ (forall o', In o' (orders st') ->
        In o' (orders st)
        \/ (order_id o' = orderId /\ order_user_id o' = user
            /\ order_status o' = "cancelled"))
  /\ List.map order_identity (orders st') = List.map order_identity (orders st)
  /\ payments st' = payments st
  /\ order_items st' = order_items st
  /\ product_variants st' = product_variants st
  /\ cancelOrder true user orderId st = (true, st).
Proof.
  intros st'. subst st'. rewrite cancelOrder_orders.
  split; [|split; [|split; [|split]]].
  - intros o Hin Hid Hu. apply List.in_map_iff. exists o. split; [|exact Hin].
    rewrite Hid, Hu, !String.eqb_refl. reflexivity.
  - intros o Hin Hne. apply List.in_map_iff. exists o. split; [|exact Hin].
    destruct (String.eqb_spec (order_id o) orderId) as [E1|E1];
      destruct (String.eqb_spec (order_user_id o) user) as [E2|E2];
      try reflexivity.
    destruct Hne; contradiction.
  - intros o' Hin. apply List.in_map_iff in Hin as [o [<- Hin]].
    destruct (String.eqb_spec (order_id o) orderId) as [E1|E1];
      destruct (String.eqb_spec (order_user_id o) user) as [E2|E2];
      simpl; auto.
  - rewrite List.map_map. apply List.map_ext. intros o.
    destruct (String.eqb (order_id o) orderId && String.eqb (order_user_id o) user);
      reflexivity.
  - repeat split. unfold cancelOrder, write. rewrite set_orders_same. reflexivity.
Qed.

Lemma cancelOrder_touches_only_the_callers_order_witness :
  let o := mkOrder "order_A" "alice" (total Scenario.items) SHIPPING_COST
             (total Scenario.items + SHIPPING_COST)%float "pending" "razorpay" in
  In (mark_cancelled o) (orders (snd (cancelOrder false "alice" "order_A" Scenario.begun)))
  /\ In o (orders (snd (cancelOrder false "mallory" "order_A" Scenario.begun))).
Proof.
  intros o. split.
  - apply (proj1 (cancelOrder_touches_only_the_callers_order "alice" "order_A"
                    Scenario.begun) o (or_introl eq_refl) eq_refl eq_refl).
  - apply (proj1 (proj2 (cancelOrder_touches_only_the_callers_order "mallory" "order_A"
                           Scenario.begun)) o (or_introl eq_refl)).
    right. simpl. discriminate.
Defined.

(** X27: [verify-payment] does not look at the status an order has: after
    the owner has cancelled the order, a callback whose signature
    verifies sets it to [confirmed], the store applying the update. *)
Theorem late_callback_confirms_a_cancelled_order env oc user gid pid sig oid st o :
  sig = expectedSignature env gid pid ->
  orders_write_error oc = false ->
  In o (orders st) -> order_id o = oid -> order_user_id o = user ->
  let st1 := snd (cancelOrder false user oid st) in
  let st2 := snd (serve env oc (mkRequest "POST" (Some user)
                                   (VerifyPayment gid pid sig oid)) st1) in
  In (mark_cancelled o) (orders st1)
  /\ In (mark_confirmed o) (orders st2)
  /\ (forall o', In o' (orders st2) -> order_id o' = oid -> order_status o' = "confirmed").
Proof.
  intros Hsig Hw Hin Hid Hu st1 st2.
  assert (In (mark_cancelled o) (orders st1)) as Hc.
  { subst st1. rewrite cancelOrder_orders. apply List.in_map_iff. exists o.
    split; [|exact Hin]. rewrite Hid, Hu, !String.eqb_refl. reflexivity. }
  split; [exact Hc|]. subst st2.
  rewrite serve_verify_payment,
    (verify_payment_match _ _ _ _ _ _ _ (signature_mismatch_false _ _ _ _ Hsig)), Hw.
  cbn [snd set_orders set_payments orders]. split.
  - change (mark_confirmed o) with (mark_confirmed (mark_cancelled o)).
    apply update_eq_hit; [exact Hc | exact Hid].
  - intros o' Hin' Hid'.
    apply update_eq_selected in Hin' as [r0 [_ [_ ->]]]; [reflexivity| |exact Hid'].
    intros r. reflexivity.
Qed.

Lemma late_callback_confirms_a_cancelled_order_witness :
  let st1 := snd (cancelOrder false "alice" "order_A" Scenario.begun) in
  let st2 := snd (Scenario.verify Scenario.ok "alice" Scenario.callback "order_A" st1) in
  List.map order_status (orders st1) = ["cancelled"]
  /\ (forall o', In o' (orders st2) -> order_id o' = "order_A" ->
        order_status o' = "confirmed").
Proof.
  intros st1 st2. split; [reflexivity|].
  assert (response_razorpay_signature Scenario.callback
          = expectedSignature Scenario.env "rzp_1" "pay_1") as Hsig
    by (vm_compute; reflexivity).
  exact (proj2 (proj2 (late_callback_confirms_a_cancelled_order Scenario.env Scenario.ok
                         "alice" "rzp_1" "pay_1"
                         (response_razorpay_signature Scenario.callback) "order_A"
                         Scenario.begun
                         (mkOrder "order_A" "alice" (total Scenario.items) SHIPPING_COST
                            (total Scenario.items + SHIPPING_COST)%float "pending" "razorpay")
                         Hsig eq_refl (or_introl eq_refl) eq_refl eq_refl))).
Defined.

(** ** Recently viewed products *)

Lemma NoDup_map_filter {A B : Type} (f : A -> B) (keep : A -> bool) l :
  List.NoDup (List.map f l) -> List.NoDup (List.map f (List.filter keep l)).
Proof.
  induction l as [|a l IH]; simpl; intros Hnd; [exact Hnd|].
  apply List.NoDup_cons_iff in Hnd as [Hni Hnd].
  destruct (keep a); simpl; [|exact (IH Hnd)].
  constructor; [|exact (IH Hnd)].
  intros Hin. apply Hni. apply List.in_map_iff in Hin as [b [Hb Hin]].
  apply List.filter_In in Hin as [Hin _]. rewrite <- Hb. apply List.in_map. exact Hin.
Qed.

Lemma In_firstn {A : Type} n : forall (l : list A) x,
  In x (List.firstn n l) -> In x l.
Proof.
  induction n as [|n IH]; intros l x Hin; simpl in Hin; [contradiction|].
  destruct l as [|a l]; [contradiction|].
  destruct Hin as [->|Hin]; [left; reflexivity | right; exact (IH l x Hin)].
Qed.

Lemma NoDup_firstn {A : Type} n (l : list A) :
  List.NoDup l -> List.NoDup (List.firstn n l).
Proof.
  revert l. induction n as [|n IH]; intros l Hnd; simpl; [constructor|].
  destruct l as [|a l]; [constructor|].
  apply List.NoDup_cons_iff in Hnd as [Hni Hnd].
  constructor; [|exact (IH l Hnd)].
  intros Hin. apply Hni. exact (In_firstn _ _ _ Hin).
Qed.

(** X28: [addProduct] puts the product first, stamped with the current
    time, keeps at most [MAX_ITEMS] (10) entries, holds the product once
    only however often it is viewed, and, when the history had no product
    twice, neither has the new one. *)
Theorem addProduct_keeps_a_short_list_without_repeats now product prev :
  List.hd_error (addProduct now product prev) = Some (viewed_now now product)
  /\ (List.length (addProduct now product prev) <= MAX_ITEMS)%nat
  /\ (List.length (addProduct now product prev) <= S (List.length prev))%nat
  /\ (forall p, In p (List.tl (addProduct now product prev)) ->
        In p prev /\ viewed_id p <> viewed_id product)
  /\ (List.NoDup (List.map viewed_id prev) ->
      List.NoDup (List.map viewed_id (addProduct now product prev))).
Proof.
  unfold addProduct, MAX_ITEMS. cbn [List.firstn List.hd_error List.tl].
  split; [reflexivity|]. split; [|split; [|split]].
  - simpl. rewrite List.length_firstn. lia.
  - simpl. rewrite List.length_firstn.
    pose proof (List.filter_length_le
                  (fun p => negb (String.eqb (viewed_id p) (viewed_id product))) prev).
    lia.
  - intros p Hin. apply In_firstn in Hin. apply List.filter_In in Hin as [Hin Hne].
    split; [exact Hin|].
    destruct (String.eqb_spec (viewed_id p) (viewed_id product)); [discriminate|assumption].
  - intros Hnd.
    change (viewed_now now product
              :: List.firstn 9 (List.filter
                   (fun p => negb (String.eqb (viewed_id p) (viewed_id product))) prev))
      with (List.firstn 10 (viewed_now now product
              :: List.filter
                   (fun p => negb (String.eqb (viewed_id p) (viewed_id product))) prev)).
    rewrite <- List.firstn_map. apply NoDup_firstn. simpl.
    constructor; [|apply NoDup_map_filter; exact Hnd].
    intros Hin. apply List.in_map_iff in Hin as [p [Hp Hin]].
    apply List.filter_In in Hin as [_ Hne].
    rewrite Hp, String.eqb_refl in Hne. discriminate.
Qed.

Lemma addProduct_keeps_a_short_list_without_repeats_witness :
  List.map viewed_id
    (addProduct 2000 (Shop.viewed "p1" 0) [Shop.viewed "p2" 1000; Shop.viewed "p1" 500])
  = ["p1"; "p2"]
  /\ List.NoDup (List.map viewed_id
       (addProduct 2000 (Shop.viewed "p1" 0)
          [Shop.viewed "p2" 1000; Shop.viewed "p1" 500])).
Proof.
  split; [reflexivity|].
  refine (proj2 (proj2 (proj2 (proj2
            (addProduct_keeps_a_short_list_without_repeats 2000 (Shop.viewed "p1" 0)
               [Shop.viewed "p2" 1000; Shop.viewed "p1" 500])))) _).
  repeat constructor; simpl; intuition discriminate.
Defined.
